(** * Flux and gradient reconstruction of the 2p2c box model

    A shallow embedding of
    - [dumux/boxmodels/2p2c/2p2cboundaryvariables.hh]
      (class [TwoPTwoCBoundaryVariables]) and
    - [dumux/boxmodels/2p2cni/2p2cnifluxvariables.hh]
      (class [TwoPTwoCNIFluxVariables]),
    and of the scalar methods of two of their users,
    - [test/boxmodels/mpnc/obstaclespatialparameters.hh]
      (class [ObstacleSpatialParameters]) and
    - [test/boxmodels/2p2cni/waterairproblem.hh]
      (class [WaterAirProblem]).

    [Scalar] (a C++ [double]) is idealised as a real number: rounding,
    overflow and underflow are outside the model.  The two operations of
    the source that signal a floating-point exception on finite operands
    (a division by zero and a [pow] domain or pole error) are kept: they
    return [None], which stands for the resulting Inf/NaN.  A result
    [Some v] gives the value in exact arithmetic; it does not say that
    the computation in double precision stays within range.

    Indices are natural numbers.  An array [X a[numPhases]] is a list of
    length [numPhases]; the source indexes it within range only when the
    phase indices of the [TypeTag] lie below [numPhases], and writes
    [K[1][1]] within range only for a grid of dimension two or more.
    The theorems state these conditions where they depend on them. *)

From Stdlib Require Import Reals Lra Lia.
From stdpp Require Import base option list.

Open Scope R_scope.

(** ** Scalars and Dune's dense vectors and matrices *)

Abbreviation Scalar := R (only parsing).

#[global] Instance Scalar_inhabited : Inhabited Scalar := populate 0.

(** [Dune::FieldVector<Scalar, dim>]: a list of [dim] components. *)
Abbreviation Vector := (list Scalar) (only parsing).

(** [Dune::FieldMatrix<Scalar, dim, dim>]: a list of [dim] rows. *)
Abbreviation Tensor := (list Vector) (only parsing).

(** [Vector v(0.0)] and [v = Scalar(0)]: every component is zero. *)
Definition vzero (dim : nat) : Vector := replicate dim 0.

(** [a += b] *)
Definition vadd (a b : Vector) : Vector := zip_with Rplus a b.

(** [a -= b] *)
Definition vsub (a b : Vector) : Vector := zip_with Rminus a b.

(** [a *= s] *)
Definition vscale (a : Vector) (s : Scalar) : Vector :=
  map (fun x => x * s) a.

(** [a * b], the scalar product of two vectors. *)
Fixpoint dot (a b : Vector) : Scalar :=
  match a, b with
  | x :: a', y :: b' => x * y + dot a' b'
  | _, _ => 0
  end.

(** [Tensor K(0)] *)
Definition tzero (dim : nat) : Tensor := replicate dim (vzero dim).

(** [K[i][j] = v] *)
Definition tset (i j : nat) (v : Scalar) (K : Tensor) : Tensor :=
  alter (fun row => <[j := v]> row) i K.

(** [K.mv(x, y)]: [y = K x]. *)
Definition mv (K : Tensor) (x : Vector) : Vector :=
  map (fun row => dot row x) K.

(** ** Floating-point operations that can signal an exception *)

(** [a / b]: a zero divisor signals FE_DIVBYZERO (or FE_INVALID for 0/0). *)
Definition fdiv (a b : Scalar) : option Scalar :=
  if Req_dec_T b 0 then None else Some (a / b).

Module cmath.

(** The integer [n] with [y = n], when the exponent [y] is integral. *)
Definition integral (y : Scalar) : option Z :=
  let n := (up y - 1)%Z in
  if Req_dec_T y (IZR n) then Some n else None.

(** [pow(x, y)] of <cmath> on finite operands.  A negative base with a
    non-integral exponent is a domain error (NaN, FE_INVALID); a zero
    base with a negative exponent is a pole error (Inf, FE_DIVBYZERO). *)
Definition pow (x y : Scalar) : option Scalar :=
  if Rlt_dec 0 x then Some (Rpower x y)
  else if Req_dec_T y 0 then Some 1
  else if Req_dec_T x 0 then
         (if Rlt_dec 0 y then Some 0 else None)
  else match integral y with
       | Some n => Some (powerRZ x n)
       | None => None
       end.

End cmath.

(** ** Compile-time properties *)

(** The properties the two classes read from their [TypeTag] through
    [GET_PROP_TYPE], [GET_PROP_VALUE] and [GET_PARAM].  Their values are
    set in property files that the classes only include, so they are
    left open here. *)
Record TypeTag : Type := {
  Element : Type;               (* GridView::Codim<0>::Entity *)
  TwoPTwoCFluxVariables : Type; (* the isothermal flux variables *)
  dim : nat;                    (* GridView::dimension *)
  dimWorld : nat;               (* GridView::dimensionworld *)
  numPhases : nat;              (* NumPhases *)
  lPhaseIdx : nat;              (* Indices::lPhaseIdx *)
  gPhaseIdx : nat;              (* Indices::gPhaseIdx *)
  lCompIdx : nat;               (* Indices::lCompIdx *)
  gCompIdx : nat;               (* Indices::gCompIdx *)
  EnableGravity : bool          (* GET_PARAM(TypeTag, bool, EnableGravity) *)
}.

(** ** Collaborators: volume variables, geometry, problem *)

Record FluidState : Type := {
  massFraction : nat -> nat -> Scalar;
  moleFraction : nat -> nat -> Scalar
}.

Record VolumeVariables : Type := {
  pressure : nat -> Scalar;
  density : nat -> Scalar;
  molarDensity : nat -> Scalar;
  saturation : nat -> Scalar;
  porosity : Scalar;
  diffCoeff : nat -> Scalar;
  fluidState : FluidState;
  temperature : Scalar
}.

(** [elemDat[idx]] *)
Definition ElementVolumeVariables : Type := nat -> VolumeVariables.

Module BoundaryFace.
Record t : Type := {
  grad : nat -> Vector;
  shapeValue : nat -> Scalar;
  normal : Vector
}.
End BoundaryFace.

Module SubControlVolumeFace.
Record t : Type := {
  grad : nat -> Vector;
  normal : Vector
}.
End SubControlVolumeFace.

Record FVElementGeometry : Type := {
  numVertices : nat;
  boundaryFace : nat -> BoundaryFace.t;
  subContVolFace : nat -> SubControlVolumeFace.t
}.

Record SpatialParameters (T : TypeTag) : Type := {
  intrinsicPermeability : Element T -> FVElementGeometry -> nat -> Scalar;
  (* [matrixHeatFlux(heatFlux, fluxDat, elemDat, temperatureGrad,
     element, elemGeom, scvfIdx)]: the first argument is passed by
     reference and holds the result on return; the model passes its
     value on entry and takes its value on exit.  [fluxDat] is the
     object under construction, of which only the base part is
     initialised at the call. *)
  matrixHeatFlux : Vector -> TwoPTwoCFluxVariables T ->
                   ElementVolumeVariables -> Vector -> Element T ->
                   FVElementGeometry -> nat -> Vector
}.
Arguments intrinsicPermeability {T}.
Arguments matrixHeatFlux {T}.

Record Problem (T : TypeTag) : Type := {
  gravity : Vector;
  spatialParameters : SpatialParameters T
}.
Arguments gravity {T}.
Arguments spatialParameters {T}.

(** ** Counted loops *)

(** [for (int i = 0; i < n; ++i) body]: the state after [n] rounds. *)
Fixpoint for_upto {S : Type} (n : nat) (body : nat -> S -> S) (s : S) : S :=
  match n with
  | O => s
  | S k => body k (for_upto k body s)
  end.

(** ** [TwoPTwoCBoundaryVariables] *)

(** The data members of the class.  An array [X a[numPhases]] is a list;
    [porousDiffCoeff_] holds [None] where the source holds Inf or NaN. *)
Record TwoPTwoCBoundaryVariables : Type := {
  fvElemGeom_ : FVElementGeometry;
  boundaryFace_ : BoundaryFace.t;
  potentialGrad_ : list Vector;
  concentrationGrad_ : list Vector;
  molarConcGrad_ : list Vector;
  pressureAtIP_ : list Scalar;
  densityAtIP_ : list Scalar;
  molarDensityAtIP_ : list Scalar;
  KmvpNormal_ : list Scalar;
  porousDiffCoeff_ : list (option Scalar);
  scvIdx_ : nat
}.

(** Assignments to one data member. *)
Definition with_potentialGrad_ (f : list Vector -> list Vector)
    (s : TwoPTwoCBoundaryVariables) : TwoPTwoCBoundaryVariables :=
  {| fvElemGeom_ := fvElemGeom_ s; boundaryFace_ := boundaryFace_ s;
     potentialGrad_ := f (potentialGrad_ s);
     concentrationGrad_ := concentrationGrad_ s;
     molarConcGrad_ := molarConcGrad_ s;
     pressureAtIP_ := pressureAtIP_ s; densityAtIP_ := densityAtIP_ s;
     molarDensityAtIP_ := molarDensityAtIP_ s;
     KmvpNormal_ := KmvpNormal_ s; porousDiffCoeff_ := porousDiffCoeff_ s;
     scvIdx_ := scvIdx_ s |}.

Definition with_concentrationGrad_ (f : list Vector -> list Vector)
    (s : TwoPTwoCBoundaryVariables) : TwoPTwoCBoundaryVariables :=
  {| fvElemGeom_ := fvElemGeom_ s; boundaryFace_ := boundaryFace_ s;
     potentialGrad_ := potentialGrad_ s;
     concentrationGrad_ := f (concentrationGrad_ s);
     molarConcGrad_ := molarConcGrad_ s;
     pressureAtIP_ := pressureAtIP_ s; densityAtIP_ := densityAtIP_ s;
     molarDensityAtIP_ := molarDensityAtIP_ s;
     KmvpNormal_ := KmvpNormal_ s; porousDiffCoeff_ := porousDiffCoeff_ s;
     scvIdx_ := scvIdx_ s |}.

Definition with_molarConcGrad_ (f : list Vector -> list Vector)
    (s : TwoPTwoCBoundaryVariables) : TwoPTwoCBoundaryVariables :=
  {| fvElemGeom_ := fvElemGeom_ s; boundaryFace_ := boundaryFace_ s;
     potentialGrad_ := potentialGrad_ s;
     concentrationGrad_ := concentrationGrad_ s;
     molarConcGrad_ := f (molarConcGrad_ s);
     pressureAtIP_ := pressureAtIP_ s; densityAtIP_ := densityAtIP_ s;
     molarDensityAtIP_ := molarDensityAtIP_ s;
     KmvpNormal_ := KmvpNormal_ s; porousDiffCoeff_ := porousDiffCoeff_ s;
     scvIdx_ := scvIdx_ s |}.

Definition with_pressureAtIP_ (f : list Scalar -> list Scalar)
    (s : TwoPTwoCBoundaryVariables) : TwoPTwoCBoundaryVariables :=
  {| fvElemGeom_ := fvElemGeom_ s; boundaryFace_ := boundaryFace_ s;
     potentialGrad_ := potentialGrad_ s;
     concentrationGrad_ := concentrationGrad_ s;
     molarConcGrad_ := molarConcGrad_ s;
     pressureAtIP_ := f (pressureAtIP_ s); densityAtIP_ := densityAtIP_ s;
     molarDensityAtIP_ := molarDensityAtIP_ s;
     KmvpNormal_ := KmvpNormal_ s; porousDiffCoeff_ := porousDiffCoeff_ s;
     scvIdx_ := scvIdx_ s |}.

Definition with_densityAtIP_ (f : list Scalar -> list Scalar)
    (s : TwoPTwoCBoundaryVariables) : TwoPTwoCBoundaryVariables :=
  {| fvElemGeom_ := fvElemGeom_ s; boundaryFace_ := boundaryFace_ s;
     potentialGrad_ := potentialGrad_ s;
     concentrationGrad_ := concentrationGrad_ s;
     molarConcGrad_ := molarConcGrad_ s;
     pressureAtIP_ := pressureAtIP_ s; densityAtIP_ := f (densityAtIP_ s);
     molarDensityAtIP_ := molarDensityAtIP_ s;
     KmvpNormal_ := KmvpNormal_ s; porousDiffCoeff_ := porousDiffCoeff_ s;
     scvIdx_ := scvIdx_ s |}.

Definition with_molarDensityAtIP_ (f : list Scalar -> list Scalar)
    (s : TwoPTwoCBoundaryVariables) : TwoPTwoCBoundaryVariables :=
  {| fvElemGeom_ := fvElemGeom_ s; boundaryFace_ := boundaryFace_ s;
     potentialGrad_ := potentialGrad_ s;
     concentrationGrad_ := concentrationGrad_ s;
     molarConcGrad_ := molarConcGrad_ s;
     pressureAtIP_ := pressureAtIP_ s; densityAtIP_ := densityAtIP_ s;
     molarDensityAtIP_ := f (molarDensityAtIP_ s);
     KmvpNormal_ := KmvpNormal_ s; porousDiffCoeff_ := porousDiffCoeff_ s;
     scvIdx_ := scvIdx_ s |}.

Definition with_KmvpNormal_ (f : list Scalar -> list Scalar)
    (s : TwoPTwoCBoundaryVariables) : TwoPTwoCBoundaryVariables :=
  {| fvElemGeom_ := fvElemGeom_ s; boundaryFace_ := boundaryFace_ s;
     potentialGrad_ := potentialGrad_ s;
     concentrationGrad_ := concentrationGrad_ s;
     molarConcGrad_ := molarConcGrad_ s;
     pressureAtIP_ := pressureAtIP_ s; densityAtIP_ := densityAtIP_ s;
     molarDensityAtIP_ := molarDensityAtIP_ s;
     KmvpNormal_ := f (KmvpNormal_ s); porousDiffCoeff_ := porousDiffCoeff_ s;
     scvIdx_ := scvIdx_ s |}.

Definition with_porousDiffCoeff_
    (f : list (option Scalar) -> list (option Scalar))
    (s : TwoPTwoCBoundaryVariables) : TwoPTwoCBoundaryVariables :=
  {| fvElemGeom_ := fvElemGeom_ s; boundaryFace_ := boundaryFace_ s;
     potentialGrad_ := potentialGrad_ s;
     concentrationGrad_ := concentrationGrad_ s;
     molarConcGrad_ := molarConcGrad_ s;
     pressureAtIP_ := pressureAtIP_ s; densityAtIP_ := densityAtIP_ s;
     molarDensityAtIP_ := molarDensityAtIP_ s;
     KmvpNormal_ := KmvpNormal_ s;
     porousDiffCoeff_ := f (porousDiffCoeff_ s);
     scvIdx_ := scvIdx_ s |}.

Section BoundaryVariables.
Context (T : TypeTag).

(** The permeability tensor of lines 208-209:
    [Tensor K(0); K[0][0] = K[1][1] = k;] *)
Definition permeabilityTensor (k : Scalar) : Tensor :=
  tset 0 0 k (tset 1 1 k (tzero (dim T))).

(** Lines 216-224, the value stored in [porousDiffCoeff_[phaseIdx]]. *)
Definition porousDiffCoeffAt (vertDat : VolumeVariables) (phaseIdx : nat)
    : option Scalar :=
  if Rle_dec (saturation vertDat phaseIdx) 0 then Some 0
  else
    tau ← (q ← fdiv 1 (porosity vertDat * porosity vertDat);
           p ← cmath.pow (porosity vertDat * saturation vertDat phaseIdx)
                         (7 / 3);
           Some (q * p));
    Some (porosity vertDat * saturation vertDat phaseIdx * tau
          * diffCoeff vertDat phaseIdx).

(** Lines 161-167: one round of the pressure-gradient loop.  The state is
    the object together with the local [tmp]. *)
Definition pressureGradStep (elemDat : ElementVolumeVariables) (idx : nat)
    (feGrad : Vector) (phaseIdx : nat)
    (st : TwoPTwoCBoundaryVariables * Vector)
    : TwoPTwoCBoundaryVariables * Vector :=
  let tmp := feGrad in
  let tmp := vscale tmp (pressure (elemDat idx) phaseIdx) in
  (with_potentialGrad_ (alter (fun v => vadd v tmp) phaseIdx) (fst st), tmp).

(** Lines 189-194: one round of the integration-point loop. *)
Definition atIPStep (elemDat : ElementVolumeVariables) (idx : nat)
    (phaseIdx : nat) (self : TwoPTwoCBoundaryVariables)
    : TwoPTwoCBoundaryVariables :=
  let shape := BoundaryFace.shapeValue (boundaryFace_ self) idx in
  let self :=
    with_pressureAtIP_
      (alter (fun x => x + pressure (elemDat idx) phaseIdx * shape) phaseIdx)
      self in
  let self :=
    with_densityAtIP_
      (alter (fun x => x + density (elemDat idx) phaseIdx * shape) phaseIdx)
      self in
  with_molarDensityAtIP_
    (alter (fun x => x + molarDensity (elemDat idx) phaseIdx * shape) phaseIdx)
    self.

(** Lines 156-195: one round of the loop over the vertices. *)
Definition vertexStep (elemDat : ElementVolumeVariables) (idx : nat)
    (st : TwoPTwoCBoundaryVariables * Vector)
    : TwoPTwoCBoundaryVariables * Vector :=
  let feGrad := BoundaryFace.grad (boundaryFace_ (fst st)) idx in
  let st := for_upto (numPhases T) (pressureGradStep elemDat idx feGrad) st in
  let self := fst st in
  let tmp := feGrad in
  let tmp := vscale tmp (massFraction (fluidState (elemDat idx))
                                      (lPhaseIdx T) (gCompIdx T)) in
  let self :=
    with_concentrationGrad_ (alter (fun v => vadd v tmp) (lPhaseIdx T)) self in
  let tmp := feGrad in
  let tmp := vscale tmp (moleFraction (fluidState (elemDat idx))
                                      (lPhaseIdx T) (gCompIdx T)) in
  let self :=
    with_molarConcGrad_ (alter (fun v => vadd v tmp) (lPhaseIdx T)) self in
  let tmp := feGrad in
  let tmp := vscale tmp (massFraction (fluidState (elemDat idx))
                                      (gPhaseIdx T) (lCompIdx T)) in
  let self :=
    with_concentrationGrad_ (alter (fun v => vadd v tmp) (gPhaseIdx T)) self in
  let tmp := feGrad in
  let tmp := vscale tmp (moleFraction (fluidState (elemDat idx))
                                      (gPhaseIdx T) (lCompIdx T)) in
  let self :=
    with_molarConcGrad_ (alter (fun v => vadd v tmp) (gPhaseIdx T)) self in
  let self := for_upto (numPhases T) (atIPStep elemDat idx) self in
  (self, tmp).

(** Lines 198-225: one round of the closing loop over the phases. *)
Definition phaseStep (problem : Problem T) (element : Element T)
    (elemDat : ElementVolumeVariables) (phaseIdx : nat)
    (st : TwoPTwoCBoundaryVariables * Vector)
    : TwoPTwoCBoundaryVariables * Vector :=
  let self := fst st in
  let tmp := snd st in
  let tmp :=
    if EnableGravity T
    then vscale (gravity problem) (densityAtIP_ self !!! phaseIdx)
    else tmp in
  let self :=
    with_potentialGrad_ (alter (fun v => vsub v tmp) phaseIdx) self in
  let k := intrinsicPermeability (spatialParameters problem)
             element (fvElemGeom_ self) (scvIdx_ self) in
  let K := permeabilityTensor k in
  let Kmvp := mv K (potentialGrad_ self !!! phaseIdx) in
  let self :=
    with_KmvpNormal_
      (<[phaseIdx := - dot Kmvp (BoundaryFace.normal (boundaryFace_ self))]>)
      self in
  let vertDat := elemDat (scvIdx_ self) in
  let self :=
    with_porousDiffCoeff_
      (<[phaseIdx := porousDiffCoeffAt vertDat phaseIdx]>) self in
  (self, tmp).

(** Lines 146-226.  The result keeps the final value of the local [tmp]
    beside the object. *)
Definition calculateBoundaryValues_ (problem : Problem T)
    (element : Element T) (elemDat : ElementVolumeVariables)
    (self : TwoPTwoCBoundaryVariables)
    : TwoPTwoCBoundaryVariables * Vector :=
  let tmp := vzero (dim T) in
  let st := for_upto (numVertices (fvElemGeom_ self))
                     (vertexStep elemDat) (self, tmp) in
  for_upto (numPhases T) (phaseStep problem element elemDat) st.

(** Lines 85-99: the member initialisers and the loop that zeroes every
    entry of the arrays. *)
Definition initialBoundaryVariables (elemGeom : FVElementGeometry)
    (boundaryFaceIdx : nat) (scvIdx : nat) : TwoPTwoCBoundaryVariables :=
  {| fvElemGeom_ := elemGeom;
     boundaryFace_ := boundaryFace elemGeom boundaryFaceIdx;
     potentialGrad_ := replicate (numPhases T) (vzero (dim T));
     concentrationGrad_ := replicate (numPhases T) (vzero (dim T));
     molarConcGrad_ := replicate (numPhases T) (vzero (dim T));
     pressureAtIP_ := replicate (numPhases T) 0;
     densityAtIP_ := replicate (numPhases T) 0;
     molarDensityAtIP_ := replicate (numPhases T) 0;
     KmvpNormal_ := replicate (numPhases T) 0;
     porousDiffCoeff_ := replicate (numPhases T) (Some 0);
     scvIdx_ := scvIdx |}.

(** Lines 79-102: the constructor. *)
Definition construct (problem : Problem T) (element : Element T)
    (elemGeom : FVElementGeometry) (boundaryFaceIdx : nat)
    (elemDat : ElementVolumeVariables) (scvIdx : nat)
    : TwoPTwoCBoundaryVariables :=
  fst (calculateBoundaryValues_ problem element elemDat
         (initialBoundaryVariables elemGeom boundaryFaceIdx scvIdx)).

(** The accessors of the class; [potentialGrad_] has none in the source
    and is read as a member. *)
Definition KmvpNormal (self : TwoPTwoCBoundaryVariables) (phaseIdx : nat)
    : Scalar := KmvpNormal_ self !!! phaseIdx.

Definition porousDiffCoeff (self : TwoPTwoCBoundaryVariables)
    (phaseIdx : nat) : option Scalar := porousDiffCoeff_ self !!! phaseIdx.

Definition densityAtIP (self : TwoPTwoCBoundaryVariables) (phaseIdx : nat)
    : Scalar := densityAtIP_ self !!! phaseIdx.

Definition molarDensityAtIP (self : TwoPTwoCBoundaryVariables)
    (phaseIdx : nat) : Scalar := molarDensityAtIP_ self !!! phaseIdx.

Definition concentrationGrad (self : TwoPTwoCBoundaryVariables)
    (phaseIdx : nat) : Vector := concentrationGrad_ self !!! phaseIdx.

Definition molarConcGrad (self : TwoPTwoCBoundaryVariables)
    (phaseIdx : nat) : Vector := molarConcGrad_ self !!! phaseIdx.

Definition potentialGrad (self : TwoPTwoCBoundaryVariables)
    (phaseIdx : nat) : Vector := potentialGrad_ self !!! phaseIdx.

End BoundaryVariables.

(** ** [TwoPTwoCNIFluxVariables] *)

Section NIFluxVariables.
Context (T : TypeTag).

(** The constructor of the base class [TwoPTwoCFluxVariables<TypeTag>],
    called in the member initialiser list (line 85).  The base class is
    defined in a file that the class only includes. *)
Variable ParentType :
  Problem T -> Element T -> FVElementGeometry -> nat ->
  ElementVolumeVariables -> TwoPTwoCFluxVariables T.

(** The object: the base sub-object and the one added data member. *)
Record TwoPTwoCNIFluxVariables : Type := {
  parent : TwoPTwoCFluxVariables T;
  normalMatrixHeatFlux_ : Scalar
}.

(** Lines 91-96: one round of the loop over the vertices.  The state is
    the pair of locals [(temperatureGrad, tmp)]. *)
Definition temperatureGradStep (elemGeom : FVElementGeometry)
    (scvfIdx : nat) (elemDat : ElementVolumeVariables) (vertIdx : nat)
    (st : Vector * Vector) : Vector * Vector :=
  let temperatureGrad := fst st in
  let tmp :=
    SubControlVolumeFace.grad (subContVolFace elemGeom scvfIdx) vertIdx in
  let tmp := vscale tmp (temperature (elemDat vertIdx)) in
  (vadd temperatureGrad tmp, tmp).

(** Lines 89-96: the locals after the loop. *)
Definition temperatureGradLoop (elemGeom : FVElementGeometry)
    (scvfIdx : nat) (elemDat : ElementVolumeVariables) : Vector * Vector :=
  let temperatureGrad := vzero (dimWorld T) in
  let tmp := vzero (dimWorld T) in
  for_upto (numVertices elemGeom)
           (temperatureGradStep elemGeom scvfIdx elemDat)
           (temperatureGrad, tmp).

(** Lines 86-108: the constructor body, run on the constructed base. *)
Definition constructBody (problem : Problem T) (element : Element T)
    (elemGeom : FVElementGeometry) (scvfIdx : nat)
    (elemDat : ElementVolumeVariables) (base : TwoPTwoCFluxVariables T)
    : TwoPTwoCNIFluxVariables :=
  let st := temperatureGradLoop elemGeom scvfIdx elemDat in
  let temperatureGrad := fst st in
  let tmp := snd st in
  let tmp := matrixHeatFlux (spatialParameters problem) tmp base elemDat
               temperatureGrad element elemGeom scvfIdx in
  {| parent := base;
     normalMatrixHeatFlux_ :=
       dot tmp (SubControlVolumeFace.normal
                  (subContVolFace elemGeom scvfIdx)) |}.

(** Lines 80-108: the constructor. *)
Definition constructNI (problem : Problem T) (element : Element T)
    (elemGeom : FVElementGeometry) (scvfIdx : nat)
    (elemDat : ElementVolumeVariables) : TwoPTwoCNIFluxVariables :=
  constructBody problem element elemGeom scvfIdx elemDat
    (ParentType problem element elemGeom scvfIdx elemDat).

(** Line 115 *)
Definition normalMatrixHeatFlux (self : TwoPTwoCNIFluxVariables) : Scalar :=
  normalMatrixHeatFlux_ self.

End NIFluxVariables.

Arguments parent {T}.
Arguments normalMatrixHeatFlux_ {T}.
Arguments normalMatrixHeatFlux {T}.

(** ** The constructor body on the object under construction *)

(** Line 100 hands the heat-flux law the object itself, [*this], beside
    the vector [tmp]; both are passed by reference.  The definitions
    above read the law as taking the flux variables by const reference.
    Here the law is any function of what it is handed: it returns what
    it leaves in [tmp] and in the object. *)
Section NIFluxVariablesInPlace.
Context (T : TypeTag).

Definition HeatFluxLawByReference : Type :=
  Vector -> TwoPTwoCNIFluxVariables T -> ElementVolumeVariables -> Vector ->
  Element T -> FVElementGeometry -> nat ->
  Vector * TwoPTwoCNIFluxVariables T.

(** [normalMatrixHeatFlux_ = x] *)
Definition with_normalMatrixHeatFlux_ (x : Scalar)
    (self : TwoPTwoCNIFluxVariables T) : TwoPTwoCNIFluxVariables T :=
  {| parent := parent self; normalMatrixHeatFlux_ := x |}.

(** Lines 86-108, run on the object [self] as the base constructor and
    the not yet assigned member leave it. *)
Definition constructBodyInPlace (law : HeatFluxLawByReference)
    (element : Element T) (elemGeom : FVElementGeometry) (scvfIdx : nat)
    (elemDat : ElementVolumeVariables) (self : TwoPTwoCNIFluxVariables T)
    : TwoPTwoCNIFluxVariables T :=
  let st := temperatureGradLoop T elemGeom scvfIdx elemDat in
  let temperatureGrad := fst st in
  let tmp := snd st in
  let handed :=
    law tmp self elemDat temperatureGrad element elemGeom scvfIdx in
  let tmp := fst handed in
  let self := snd handed in
  with_normalMatrixHeatFlux_
    (dot tmp (SubControlVolumeFace.normal (subContVolFace elemGeom scvfIdx)))
    self.



End NIFluxVariablesInPlace.

Arguments with_normalMatrixHeatFlux_ {T}.

(** * Specification-level sums *)

(** [sum over idx < n of g idx * c idx], accumulated from the zero
    vector in index order. *)
Definition gradSum (d : nat) (g : nat -> Vector) (c : nat -> Scalar)
    (n : nat) : Vector :=
  for_upto n (fun idx acc => vadd acc (vscale (g idx) (c idx))) (vzero d).

(** [sum over idx < n of g idx]. *)
Definition vsum (d : nat) (g : nat -> Vector) (n : nat) : Vector :=
  for_upto n (fun idx acc => vadd acc (g idx)) (vzero d).

(** [sum over idx < n of c idx * w idx]. *)
Definition shapeSum (w : nat -> Scalar) (c : nat -> Scalar) (n : nat)
    : Scalar :=
  for_upto n (fun idx acc => acc + c idx * w idx) 0.

(** * Reading the loops *)

(** The effect on one array of a loop whose round [ph] updates entry
    [ph] only. *)
Definition alterEach {A : Type} (n : nat) (f : nat -> A -> A)
    (a : list A) : list A :=
  for_upto n (fun ph a => alter (f ph) ph a) a.

Section Rounds.
Context (T : TypeTag).
Variable problem : Problem T.
Variable element : Element T.
Variable elemDat : ElementVolumeVariables.

(** What one round of the vertex loop does to each array. *)
Definition potentialGradRound (bf : BoundaryFace.t) (idx : nat)
    (a : list Vector) : list Vector :=
  alterEach (numPhases T)
    (fun ph v =>
       vadd v (vscale (BoundaryFace.grad bf idx) (pressure (elemDat idx) ph)))
    a.

Definition concentrationGradRound (bf : BoundaryFace.t) (idx : nat)
    (a : list Vector) : list Vector :=
  alter (fun v => vadd v (vscale (BoundaryFace.grad bf idx)
                            (massFraction (fluidState (elemDat idx))
                                          (gPhaseIdx T) (lCompIdx T))))
        (gPhaseIdx T)
    (alter (fun v => vadd v (vscale (BoundaryFace.grad bf idx)
                              (massFraction (fluidState (elemDat idx))
                                            (lPhaseIdx T) (gCompIdx T))))
           (lPhaseIdx T) a).

Definition molarConcGradRound (bf : BoundaryFace.t) (idx : nat)
    (a : list Vector) : list Vector :=
  alter (fun v => vadd v (vscale (BoundaryFace.grad bf idx)
                            (moleFraction (fluidState (elemDat idx))
                                          (gPhaseIdx T) (lCompIdx T))))
        (gPhaseIdx T)
    (alter (fun v => vadd v (vscale (BoundaryFace.grad bf idx)
                              (moleFraction (fluidState (elemDat idx))
                                            (lPhaseIdx T) (gCompIdx T))))
           (lPhaseIdx T) a).

Definition atIPRound (bf : BoundaryFace.t)
    (q : VolumeVariables -> nat -> Scalar) (idx : nat) (a : list Scalar)
    : list Scalar :=
  alterEach (numPhases T)
    (fun ph x => x + q (elemDat idx) ph * BoundaryFace.shapeValue bf idx) a.

(** The value of [tmp] that the vertex loop leaves behind: the last
    assignment of the last round (lines 185-186). *)
Definition tmpAfterVertices (bf : BoundaryFace.t) (n : nat) (tmp0 : Vector)
    : Vector :=
  match n with
  | O => tmp0
  | S k => vscale (BoundaryFace.grad bf k)
                  (moleFraction (fluidState (elemDat k))
                                (gPhaseIdx T) (lCompIdx T))
  end.

(** The vector subtracted from [potentialGrad_[ph]] at line 205, for a
    closing loop entered with the object [self] and the local [tmp0]. *)
Definition tmpAtPhase (self : TwoPTwoCBoundaryVariables) (tmp0 : Vector)
    (ph : nat) : Vector :=
  if EnableGravity T
  then vscale (gravity problem) (densityAtIP_ self !!! ph)
  else tmp0.

Definition potentialGradAfter (self : TwoPTwoCBoundaryVariables)
    (tmp0 : Vector) (m : nat) : list Vector :=
  alterEach m (fun ph v => vsub v (tmpAtPhase self tmp0 ph))
            (potentialGrad_ self).

Definition KmvpNormalRound (self : TwoPTwoCBoundaryVariables)
    (tmp0 : Vector) (ph : nat) (a : list Scalar) : list Scalar :=
  <[ph := - dot (mv (permeabilityTensor T
                       (intrinsicPermeability (spatialParameters problem)
                          element (fvElemGeom_ self) (scvIdx_ self)))
                    (potentialGradAfter self tmp0 (S ph) !!! ph))
                (BoundaryFace.normal (boundaryFace_ self))]> a.

Definition porousDiffCoeffRound (self : TwoPTwoCBoundaryVariables)
    (ph : nat) (a : list (option Scalar)) : list (option Scalar) :=
  <[ph := porousDiffCoeffAt (elemDat (scvIdx_ self)) ph]> a.

End Rounds.

Section Reconstructed.
Context (T : TypeTag).
Variable problem : Problem T.
Variable elemGeom : FVElementGeometry.
Variable boundaryFaceIdx : nat.
Variable elemDat : ElementVolumeVariables.

(** The raw pressure gradient of a phase: the sum over the vertices of
    the shape-function gradient times the phase pressure there. *)
Definition pressureGrad (ph : nat) : Vector :=
  gradSum (dim T)
          (BoundaryFace.grad (boundaryFace elemGeom boundaryFaceIdx))
          (fun idx => pressure (elemDat idx) ph) (numVertices elemGeom).

(** The value of the local [tmp] when the closing loop is entered. *)
Definition staleTmp : Vector :=
  tmpAfterVertices T elemDat (boundaryFace elemGeom boundaryFaceIdx)
                   (numVertices elemGeom) (vzero (dim T)).

(** The interpolated density of a phase at the integration point. *)
Definition densityIP (ph : nat) : Scalar :=
  shapeSum (BoundaryFace.shapeValue (boundaryFace elemGeom boundaryFaceIdx))
           (fun idx => density (elemDat idx) ph) (numVertices elemGeom).

(** The vector that line 205 subtracts from the pressure gradient. *)
Definition subtracted (ph : nat) : Vector :=
  if EnableGravity T then vscale (gravity problem) (densityIP ph)
  else staleTmp.

End Reconstructed.

(** * Uniform fields *)

(** Every vertex of the element holds the same pressure and density per
    phase and the same mass and mole fractions. *)
Definition uniformInputs (elemGeom : FVElementGeometry)
    (elemDat : ElementVolumeVariables) : Prop :=
  forall idx, (idx < numVertices elemGeom)%nat ->
    (forall ph, pressure (elemDat idx) ph = pressure (elemDat 0%nat) ph)
    /\ (forall ph, density (elemDat idx) ph = density (elemDat 0%nat) ph)
    /\ (forall ph c, massFraction (fluidState (elemDat idx)) ph c
                     = massFraction (fluidState (elemDat 0%nat)) ph c)
    /\ (forall ph c, moleFraction (fluidState (elemDat idx)) ph c
                     = moleFraction (fluidState (elemDat 0%nat)) ph c).

(** The shape-function gradients of a boundary face sum to zero. *)
Definition gradsCancel (T : TypeTag) (elemGeom : FVElementGeometry)
    (boundaryFaceIdx : nat) : Prop :=
  vsum (dim T) (BoundaryFace.grad (boundaryFace elemGeom boundaryFaceIdx))
       (numVertices elemGeom)
  = vzero (dim T).

(** The statement that a uniform field gives zero gradients and a zero
    Darcy flux intensity for every phase. *)
Definition uniformFieldGivesZeroFlux
    (T : TypeTag) (problem : Problem T) (element : Element T)
    (elemGeom : FVElementGeometry) (boundaryFaceIdx : nat)
    (elemDat : ElementVolumeVariables) (scvIdx : nat) : Prop :=
  uniformInputs elemGeom elemDat ->
  gradsCancel T elemGeom boundaryFaceIdx ->
  forall ph, (ph < numPhases T)%nat ->
    let self :=
      construct T problem element elemGeom boundaryFaceIdx elemDat scvIdx in
    potentialGrad self ph = vzero (dim T)
    /\ concentrationGrad self ph = vzero (dim T)
    /\ molarConcGrad self ph = vzero (dim T)
    /\ KmvpNormal self ph = 0.

(** A scalar field with the same value at every vertex of the element. *)
Definition uniformField (elemGeom : FVElementGeometry)
    (elemDat : ElementVolumeVariables) (f : VolumeVariables -> Scalar)
    : Prop :=
  forall idx, (idx < numVertices elemGeom)%nat ->
    f (elemDat idx) = f (elemDat 0%nat).

(** The shape-function gradients of a sub-control-volume face sum to
    zero. *)
Definition scvfGradsCancel (T : TypeTag) (elemGeom : FVElementGeometry)
    (scvfIdx : nat) : Prop :=
  vsum (dimWorld T)
       (SubControlVolumeFace.grad (subContVolFace elemGeom scvfIdx))
       (numVertices elemGeom)
  = vzero (dimWorld T).

(** * A boundary face to run the code on *)

Module Example.

(** Two phases, two components, a two-dimensional grid. *)
Definition tag (enableGravity : bool) : TypeTag :=
  {| Element := unit; TwoPTwoCFluxVariables := unit;
     dim := 2; dimWorld := 2; numPhases := 2;
     lPhaseIdx := 0; gPhaseIdx := 1; lCompIdx := 0; gCompIdx := 1;
     EnableGravity := enableGravity |}.

(** A face of two vertices whose shape-function gradients cancel. *)
Definition face : BoundaryFace.t :=
  {| BoundaryFace.grad :=
       fun idx => match idx with O => [-1; 0] | _ => [1; 0] end;
     BoundaryFace.shapeValue := fun _ => 1 / 2;
     BoundaryFace.normal := [0; -1] |}.

Definition scvFace : SubControlVolumeFace.t :=
  {| SubControlVolumeFace.grad :=
       fun idx => match idx with O => [-1; 0] | _ => [1; 0] end;
     SubControlVolumeFace.normal := [1; 0] |}.

Definition geometry : FVElementGeometry :=
  {| numVertices := 2;
     boundaryFace := fun _ => face;
     subContVolFace := fun _ => scvFace |}.

(** The same state at every vertex: the liquid phase (0) is absent, the
    gas phase (1) fills the pores of porosity [phi]. *)
Definition state (phi : Scalar) : VolumeVariables :=
  {| pressure := fun _ => 100000;
     density := fun _ => 1;
     molarDensity := fun _ => 40;
     saturation := fun ph => match ph with O => 0 | _ => 1 end;
     porosity := phi;
     diffCoeff := fun _ => 3;
     fluidState := {| massFraction := fun _ _ => 1 / 2;
                      moleFraction := fun _ _ => 1 / 2 |};
     temperature := 300 |}.

Definition elemDat (phi : Scalar) : ElementVolumeVariables :=
  fun _ => state phi.

(** Unit permeability, gravity along the second axis, Fourier's law
    with conductivity 2 as the heat-flux law. *)
Definition problem (enableGravity : bool) : Problem (tag enableGravity) :=
  {| gravity := [0; -1];
     spatialParameters :=
       {| intrinsicPermeability := fun _ _ _ => 1;
          matrixHeatFlux :=
            fun _ _ _ temperatureGrad _ _ _ => vscale temperatureGrad (-2) |}
  |}.

Definition boundaryVariables (enableGravity : bool) (phi : Scalar)
    : TwoPTwoCBoundaryVariables :=
  construct (tag enableGravity) (problem enableGravity) tt geometry 0
            (elemDat phi) 0.

(** Another medium at the vertices other than vertex 0, with the same
    pressures, densities and fractions. *)
Definition stateElsewhere : VolumeVariables :=
  {| pressure := fun _ => 100000;
     density := fun _ => 1;
     molarDensity := fun _ => 40;
     saturation := fun _ => 1 / 4;
     porosity := 9 / 10;
     diffCoeff := fun _ => 5;
     fluidState := {| massFraction := fun _ _ => 1 / 2;
                      moleFraction := fun _ _ => 1 / 2 |};
     temperature := 300 |}.

Definition elemDatElsewhere (phi : Scalar) : ElementVolumeVariables :=
  fun idx => match idx with O => state phi | _ => stateElsewhere end.

(** Another permeability at the sub-control volumes other than 0. *)
Definition problemElsewhere (enableGravity : bool)
    : Problem (tag enableGravity) :=
  {| gravity := [0; -1];
     spatialParameters :=
       {| intrinsicPermeability :=
            fun _ _ scvIdx => match scvIdx with O => 1 | _ => 7 end;
          matrixHeatFlux :=
            fun _ _ _ temperatureGrad _ _ _ => vscale temperatureGrad (-2) |}
  |}.

(** Gravity enabled, with a zero gravity vector. *)
Definition problemWeightless : Problem (tag true) :=
  {| gravity := [0; 0];
     spatialParameters :=
       {| intrinsicPermeability := fun _ _ _ => 1;
          matrixHeatFlux :=
            fun _ _ _ temperatureGrad _ _ _ => vscale temperatureGrad (-2) |}
  |}.

Definition weightlessVariables : TwoPTwoCBoundaryVariables :=
  construct (tag true) problemWeightless tt geometry 0 (elemDat (1 / 2)) 0.

(** The same face in a three-dimensional grid: gravity and the outward
    normal both point down the third axis. *)
Definition tag3D : TypeTag :=
  {| Element := unit; TwoPTwoCFluxVariables := unit;
     dim := 3; dimWorld := 3; numPhases := 2;
     lPhaseIdx := 0; gPhaseIdx := 1; lCompIdx := 0; gCompIdx := 1;
     EnableGravity := true |}.

Definition face3D : BoundaryFace.t :=
  {| BoundaryFace.grad :=
       fun idx => match idx with O => [-1; 0; 0] | _ => [1; 0; 0] end;
     BoundaryFace.shapeValue := fun _ => 1 / 2;
     BoundaryFace.normal := [0; 0; -1] |}.

Definition geometry3D : FVElementGeometry :=
  {| numVertices := 2;
     boundaryFace := fun _ => face3D;
     subContVolFace :=
       fun _ => {| SubControlVolumeFace.grad := BoundaryFace.grad face3D;
                   SubControlVolumeFace.normal := [0; 0; -1] |} |}.

Definition problem3D : Problem tag3D :=
  {| gravity := [0; 0; -1];
     spatialParameters :=
       {| intrinsicPermeability := fun _ _ _ => 1;
          matrixHeatFlux :=
            fun _ _ _ temperatureGrad _ _ _ => vscale temperatureGrad (-2) |}
  |}.

Definition boundaryVariables3D : TwoPTwoCBoundaryVariables :=
  construct tag3D problem3D tt geometry3D 0 (elemDat (1 / 2)) 0.

End Example.

(** * Further readings of the boundary variables *)

(** The sum of the shape values of a boundary face at its integration
    point. *)
Definition shapeValuesTotal (bf : BoundaryFace.t) (n : nat) : Scalar :=
  for_upto n (fun idx acc => acc + BoundaryFace.shapeValue bf idx) 0.

(** Every shape-function gradient of a boundary face has [dim]
    components, as its type [FieldVector<Scalar, dim>] says. *)
Definition gradsWellFormed (T : TypeTag) (elemGeom : FVElementGeometry)
    (boundaryFaceIdx : nat) : Prop :=
  forall idx, (idx < numVertices elemGeom)%nat ->
    length (BoundaryFace.grad (boundaryFace elemGeom boundaryFaceIdx) idx)
    = dim T.

(** The same element geometry with the normal of every boundary face
    reversed. *)
Definition reverseNormals (elemGeom : FVElementGeometry)
    : FVElementGeometry :=
  {| numVertices := numVertices elemGeom;
     boundaryFace :=
       fun i =>
         {| BoundaryFace.grad := BoundaryFace.grad (boundaryFace elemGeom i);
            BoundaryFace.shapeValue :=
              BoundaryFace.shapeValue (boundaryFace elemGeom i);
            BoundaryFace.normal :=
              vscale (BoundaryFace.normal (boundaryFace elemGeom i)) (-1) |};
     subContVolFace := subContVolFace elemGeom |}.

(** Every shape-function gradient of a sub-control-volume face has
    [dimWorld] components. *)
Definition scvfGradsWellFormed (T : TypeTag) (elemGeom : FVElementGeometry)
    (scvfIdx : nat) : Prop :=
  forall idx, (idx < numVertices elemGeom)%nat ->
    length (SubControlVolumeFace.grad (subContVolFace elemGeom scvfIdx) idx)
    = dimWorld T.

(** * Comparisons of scalars as conditions *)

(** [x <= y] *)
Definition Rleb (x y : Scalar) : bool :=
  if Rle_dec x y then true else false.

(** [x < y] *)
Definition Rltb (x y : Scalar) : bool :=
  if Rlt_dec x y then true else false.

(** * [ObstacleSpatialParameters] *)

(** [test/boxmodels/mpnc/obstaclespatialparameters.hh].  A global
    position is a [FieldVector<CoordScalar, dimWorld>]; the class reads
    its first two coordinates, so [dimWorld] is at least two. *)
Module ObstacleSpatialParameters.

(** The part of the finite-volume geometry that the class reads:
    [fvElemGeom.subContVol[scvIdx].global]. *)
Record FVGeometry : Type := {
  subContVolGlobal : nat -> Vector
}.

(** The scalar data members. *)
Record t : Type := {
  coarseK_ : Scalar;
  fineK_ : Scalar;
  porosity_ : Scalar
}.

(** Lines 103-111: the scalar values the constructor assigns. *)
Definition construct : t :=
  {| coarseK_ := 1e-12; fineK_ := 1e-15; porosity_ := 0.3 |}.

(** Lines 230-235 *)
Definition isFineMaterial_ (pos : Vector) : bool :=
  Rleb 10 (pos !!! 0%nat) && Rleb (pos !!! 0%nat) 20
  && Rleb 0 (pos !!! 1%nat) && Rleb (pos !!! 1%nat) 35.

(** Lines 159-166 *)
Definition intrinsicPermeability {Element : Type} (self : t)
    (element : Element) (fvElemGeom : FVGeometry) (scvIdx : nat) : Scalar :=
  if isFineMaterial_ (subContVolGlobal fvElemGeom scvIdx)
  then fineK_ self
  else coarseK_ self.

(** Lines 177-182 *)
Definition porosity {Element : Type} (self : t) (element : Element)
    (fvElemGeom : FVGeometry) (scvIdx : nat) : Scalar :=
  porosity_ self.

(** Lines 204-211 *)
Definition heatCapacitySolid {Element : Type} (self : t) (element : Element)
    (fvElemGeom : FVGeometry) (scvIdx : nat) : Scalar :=
  2700.0 * 790.0.

(** Lines 218-223 *)
Definition thermalConductivitySolid {Element : Type} (self : t)
    (element : Element) (fvElemGeom : FVGeometry) (scvIdx : nat) : Scalar :=
  2.8.

End ObstacleSpatialParameters.

(** * [WaterAirProblem] *)

(** [test/boxmodels/2p2cni/waterairproblem.hh], with [ISOTHERMAL] 0 as
    the file defines it.  The methods take the position that
    [context.pos(spaceIdx, timeIdx)] returns. *)
Module WaterAirProblem.

(** The indices the class copies from [Indices] and [FluidSystem]. *)
Record Indices : Type := {
  pressureIdx : nat;
  switchIdx : nat;
  temperatureIdx : nat;
  conti0EqIdx : nat;
  N2Idx : nat;
  H2OIdx : nat;
  lPhaseOnly : nat
}.

Definition contiN2EqIdx (I : Indices) : nat := conti0EqIdx I + N2Idx I.

Definition contiH2OEqIdx (I : Indices) : nat := conti0EqIdx I + H2OIdx I.

(** [PrimaryVariables]: a vector of scalars that also carries the phase
    presence ([values[i]] and [setPhasePresence]). *)
Record PrimaryVariables : Type := {
  entries : list Scalar;
  phasePresence : nat
}.

(** [values.setPhasePresence(p)] *)
Definition setPhasePresence (p : nat) (values : PrimaryVariables)
    : PrimaryVariables :=
  {| entries := entries values; phasePresence := p |}.

(** [values[i] = x] *)
Definition setEntry (i : nat) (x : Scalar) (values : PrimaryVariables)
    : PrimaryVariables :=
  {| entries := <[i := x]> (entries values);
     phasePresence := phasePresence values |}.

(** [values[i]] *)
Definition entry (values : PrimaryVariables) (i : nat) : Scalar :=
  entries values !!! i.

(** [RateVector]: a [FieldVector] with one entry per equation. *)
Abbreviation RateVector := (list Scalar) (only parsing).

(** The data members. *)
Record t : Type := {
  maxDepth_ : Scalar;
  eps_ : Scalar
}.

(** Lines 175-182: the values the constructor assigns. *)
Definition construct : t := {| maxDepth_ := 1000.0; eps_ := 1e-6 |}.

(** Lines 217-221: [values = 0]. *)
Definition source (self : t) (values : RateVector) : RateVector :=
  replicate (length values) 0.

(** Lines 333-345 *)
Definition initial_ (I : Indices) (self : t) (values : PrimaryVariables)
    (globalPos : Vector) : PrimaryVariables :=
  let densityW := 1000.0 in
  let values := setPhasePresence (lPhaseOnly I) values in
  let values :=
    setEntry (pressureIdx I)
             (1e5 + (maxDepth_ self - globalPos !!! 1%nat) * densityW * 9.81)
             values in
  let values := setEntry (switchIdx I) 0.0 values in
  setEntry (temperatureIdx I)
           (283.0 + (maxDepth_ self - globalPos !!! 1%nat) * 0.03) values.

(** Lines 262-267 *)
Definition dirichlet (I : Indices) (self : t) (values : PrimaryVariables)
    (globalPos : Vector) : PrimaryVariables :=
  initial_ I self values globalPos.

(** Lines 284-297 *)
Definition neumann (I : Indices) (self : t) (values : RateVector)
    (globalPos : Vector) : RateVector :=
  let values := replicate (length values) 0 in
  if Rltb 15 (globalPos !!! 0%nat) && Rltb (globalPos !!! 0%nat) 25
     && Rltb (globalPos !!! 1%nat) (eps_ self)
  then <[contiN2EqIdx I := -1e-3]> values
  else values.

(** Lines 318-328 *)
Definition initial (I : Indices) (self : t) (values : PrimaryVariables)
    (globalPos : Vector) : PrimaryVariables :=
  let values := initial_ I self values globalPos in
  if Rltb 20 (globalPos !!! 0%nat) && Rltb (globalPos !!! 0%nat) 30
     && Rltb (globalPos !!! 1%nat) 30
  then setEntry (temperatureIdx I) 380 values
  else values.

End WaterAirProblem.

(** The primary-variable indices address distinct entries of the
    vector. *)
Definition indicesWellFormed (I : WaterAirProblem.Indices)
    (values : WaterAirProblem.PrimaryVariables) : Prop :=
  (WaterAirProblem.pressureIdx I
   < length (WaterAirProblem.entries values))%nat
  /\ (WaterAirProblem.switchIdx I
      < length (WaterAirProblem.entries values))%nat
  /\ (WaterAirProblem.temperatureIdx I
      < length (WaterAirProblem.entries values))%nat
  /\ WaterAirProblem.pressureIdx I <> WaterAirProblem.switchIdx I
  /\ WaterAirProblem.pressureIdx I <> WaterAirProblem.temperatureIdx I
  /\ WaterAirProblem.switchIdx I <> WaterAirProblem.temperatureIdx I.

(** * Further inputs to run the code on *)

Module Cases.

(** The indices of the two-phase two-component non-isothermal model
    with the water-nitrogen fluid system. *)
Definition indices : WaterAirProblem.Indices :=
  {| WaterAirProblem.pressureIdx := 0;
     WaterAirProblem.switchIdx := 1;
     WaterAirProblem.temperatureIdx := 2;
     WaterAirProblem.conti0EqIdx := 0;
     WaterAirProblem.N2Idx := 1;
     WaterAirProblem.H2OIdx := 0;
     WaterAirProblem.lPhaseOnly := 1 |}.

(** Primary variables before they are assigned. *)
Definition blank : WaterAirProblem.PrimaryVariables :=
  {| WaterAirProblem.entries := [0; 0; 0];
     WaterAirProblem.phasePresence := 0 |}.

(** The Dirichlet values at the height 1000. *)
Definition surfaceValues : WaterAirProblem.PrimaryVariables :=
  WaterAirProblem.dirichlet indices WaterAirProblem.construct blank
                            [0; 1000].

(** Two vertices, one metre apart along the second axis. *)
Definition position (idx : nat) : Vector :=
  match idx with O => [0; 0] | _ => [0; 1] end.

(** A vertical face between them: the shape functions are linear in
    the height. *)
Definition verticalFace : BoundaryFace.t :=
  {| BoundaryFace.grad :=
       fun idx => match idx with O => [0; -1] | _ => [0; 1] end;
     BoundaryFace.shapeValue := fun _ => 1 / 2;
     BoundaryFace.normal := [0; -1] |}.

Definition verticalGeometry : FVElementGeometry :=
  {| numVertices := 2;
     boundaryFace := fun _ => verticalFace;
     subContVolFace :=
       fun _ =>
         {| SubControlVolumeFace.grad := BoundaryFace.grad verticalFace;
            SubControlVolumeFace.normal := [0; -1] |} |}.

(** Water at rest: the pressure and the temperature that the water-air
    problem prescribes at the position of the vertex, density 1000. *)
Definition restingState (idx : nat) : VolumeVariables :=
  let values :=
    WaterAirProblem.initial_ indices WaterAirProblem.construct blank
                             (position idx) in
  {| pressure := fun _ => WaterAirProblem.entry values 0;
     density := fun _ => 1000;
     molarDensity := fun _ => 55000;
     saturation := fun ph => match ph with O => 1 | _ => 0 end;
     porosity := 0.3;
     diffCoeff := fun _ => 3;
     fluidState := {| massFraction := fun _ _ => 0;
                      moleFraction := fun _ _ => 0 |};
     temperature := WaterAirProblem.entry values 2 |}.

(** Gravity of 9.81 down the second axis and a permeability [k]. *)
Definition earth (k : Scalar) : Problem (Example.tag true) :=
  {| gravity := [0; -9.81];
     spatialParameters :=
       {| intrinsicPermeability := fun _ _ _ => k;
          matrixHeatFlux :=
            fun _ _ _ temperatureGrad _ _ _ =>
              vscale temperatureGrad (- (2.8)) |}
  |}.

Definition restingVariables : TwoPTwoCBoundaryVariables :=
  construct (Example.tag true) (earth 1e-12) tt verticalGeometry 0
            restingState 0.

(** The example state with the pressure raised by [c] everywhere. *)
Definition raised (c : Scalar) : ElementVolumeVariables :=
  fun _ =>
    {| pressure := fun _ => 100000 + c;
       density := fun _ => 1;
       molarDensity := fun _ => 40;
       saturation := fun ph => match ph with O => 0 | _ => 1 end;
       porosity := 1 / 2;
       diffCoeff := fun _ => 3;
       fluidState := {| massFraction := fun _ _ => 1 / 2;
                        moleFraction := fun _ _ => 1 / 2 |};
       temperature := 300 + c |}.

(** The state elsewhere of the example with every phase at saturation
    one. *)
Definition saturated : ElementVolumeVariables :=
  fun _ =>
    {| pressure := fun _ => 100000;
       density := fun _ => 1;
       molarDensity := fun _ => 40;
       saturation := fun _ => 1;
       porosity := 9 / 10;
       diffCoeff := fun _ => 5;
       fluidState := {| massFraction := fun _ _ => 1 / 2;
                        moleFraction := fun _ _ => 1 / 2 |};
       temperature := 300 |}.

(** The example's properties with a scalar standing for the base flux
    variables, a base constructor that yields 1, Fourier's law taken by
    const reference, and a law that writes 0 into the base part of the
    object it is handed. *)
Definition scalarBaseTag : TypeTag :=
  {| Element := unit; TwoPTwoCFluxVariables := Scalar;
     dim := 2; dimWorld := 2; numPhases := 2;
     lPhaseIdx := 0; gPhaseIdx := 1; lCompIdx := 0; gCompIdx := 1;
     EnableGravity := true |}.




Definition meddlingLaw : HeatFluxLawByReference scalarBaseTag :=
  fun tmp self _ temperatureGrad _ _ _ =>
    (vscale temperatureGrad (-2),
     Build_TwoPTwoCNIFluxVariables scalarBaseTag 0
       (normalMatrixHeatFlux_ self)).

(** The object when the constructor body is entered: the base part is
    the 1 of the base constructor, the added member holds [x]. *)
Definition entered (x : Scalar) : TwoPTwoCNIFluxVariables scalarBaseTag :=
  Build_TwoPTwoCNIFluxVariables scalarBaseTag 1 x.

(** A sub-control volume inside the fine lens of the obstacle problem
    and one outside of it. *)
Definition obstacleGeometry : ObstacleSpatialParameters.FVGeometry :=
  {| ObstacleSpatialParameters.subContVolGlobal :=
       fun scvIdx => match scvIdx with O => [10; 35] | _ => [5; 5] end |}.

End Cases.

(** * Vector algebra *)

Lemma length_vzero d : length (vzero d) = d.
Proof. apply length_replicate. Qed.

Lemma vscale_vzero d s : vscale (vzero d) s = vzero d.
Proof.
  unfold vscale, vzero. induction d as [|d IH]; simpl; [reflexivity|].
  rewrite IH. f_equal. lra.
Qed.

Lemma vscale_vadd a b s :
  vscale (vadd a b) s = vadd (vscale a s) (vscale b s).
Proof.
  unfold vscale, vadd. revert b.
  induction a as [|x a IH]; intros [|y b]; simpl; try reflexivity.
  rewrite IH. f_equal. lra.
Qed.

Lemma vsub_vzero_r a d : length a = d -> vsub a (vzero d) = a.
Proof.
  intros <-. unfold vsub, vzero.
  induction a as [|x a IH]; simpl; [reflexivity|].
  rewrite IH. f_equal. lra.
Qed.

Lemma dot_vzero_l d b : dot (vzero d) b = 0.
Proof.
  unfold vzero. revert b.
  induction d as [|d IH]; intros [|y b]; simpl; try reflexivity.
  rewrite IH. lra.
Qed.

Lemma dot_vzero_r a d : dot a (vzero d) = 0.
Proof.
  unfold vzero. revert d.
  induction a as [|x a IH]; intros [|d]; simpl; try reflexivity.
  rewrite IH. lra.
Qed.

Lemma mv_tzero_rows n d x : mv (replicate n (vzero d)) x = vzero n.
Proof.
  unfold mv, vzero. induction n as [|n IH]; simpl; [reflexivity|].
  rewrite IH. f_equal. apply (dot_vzero_l d).
Qed.

(** A field with one value at every vertex: its gradient is the sum of
    the shape-function gradients, scaled by that value. *)
Lemma gradSum_uniform d g c n (c0 : Scalar) :
  (forall idx, (idx < n)%nat -> c idx = c0) ->
  gradSum d g c n = vscale (vsum d g n) c0.
Proof.
  unfold gradSum, vsum. induction n as [|n IH]; intros Hc; simpl.
  - symmetry. apply vscale_vzero.
  - rewrite vscale_vadd, IH by (intros; apply Hc; lia).
    rewrite (Hc n) by lia. reflexivity.
Qed.

Lemma gradSum_uniform_zero d g c n (c0 : Scalar) :
  (forall idx, (idx < n)%nat -> c idx = c0) ->
  vsum d g n = vzero d ->
  gradSum d g c n = vzero d.
Proof.
  intros Hc Hz. rewrite (gradSum_uniform d g c n c0 Hc), Hz.
  apply vscale_vzero.
Qed.

Lemma gradSum_ext d g c c' n :
  (forall idx, (idx < n)%nat -> c idx = c' idx) ->
  gradSum d g c n = gradSum d g c' n.
Proof.
  unfold gradSum. induction n as [|n IH]; intros Hc; simpl; [reflexivity|].
  rewrite IH by (intros; apply Hc; lia). rewrite (Hc n) by lia. reflexivity.
Qed.

Lemma shapeSum_ext w c c' n :
  (forall idx, (idx < n)%nat -> c idx = c' idx) ->
  shapeSum w c n = shapeSum w c' n.
Proof.
  unfold shapeSum. induction n as [|n IH]; intros Hc; simpl; [reflexivity|].
  rewrite IH by (intros; apply Hc; lia). rewrite (Hc n) by lia. reflexivity.
Qed.

(** * Arrays indexed by phase *)

Lemma lookup_alterEach {A : Type} n (f : nat -> A -> A) (a : list A) i :
  alterEach n f a !! i = if decide (i < n)%nat then f i <$> a !! i else a !! i.
Proof.
  unfold alterEach. induction n as [|n IH]; simpl.
  - destruct (decide (i < 0)%nat); [lia|reflexivity].
  - destruct (decide (n = i)) as [->|Hne].
    + rewrite list_lookup_alter_eq, IH.
      destruct (decide (i < i)%nat); [lia|].
      destruct (decide (i < S i)%nat); [reflexivity|lia].
    + rewrite list_lookup_alter_ne by exact Hne. rewrite IH.
      destruct (decide (i < n)%nat), (decide (i < S n)%nat);
        try reflexivity; lia.
Qed.

Lemma lookup_alterEach_lt {A : Type} n (f : nat -> A -> A) (a : list A) i :
  (i < n)%nat -> alterEach n f a !! i = f i <$> a !! i.
Proof.
  intros Hi. rewrite lookup_alterEach.
  destruct (decide (i < n)%nat); [reflexivity|lia].
Qed.

(** A loop over the vertices that adds, in every round and at every
    phase, one term to the entry of that phase. *)
Lemma lookup_accumulate {A : Type} (nP nV : nat) (add : A -> nat -> nat -> A)
    (z : A) (ph : nat) :
  (ph < nP)%nat ->
  for_upto nV (fun idx a => alterEach nP (fun ph x => add x idx ph) a)
           (replicate nP z) !! ph
  = Some (for_upto nV (fun idx acc => add acc idx ph) z).
Proof.
  intros Hph. induction nV as [|nV IH]; simpl.
  - apply lookup_replicate_2. exact Hph.
  - rewrite lookup_alterEach_lt by exact Hph. rewrite IH. reflexivity.
Qed.

(** A loop over the vertices that adds one term to two fixed entries,
    first at [l], then at [g]. *)
Lemma lookup_accumulate2 {A : Type} (nP nV l g : nat)
    (addl addg : A -> nat -> A) (z : A) (ph : nat) :
  (ph < nP)%nat -> l <> g ->
  for_upto nV (fun idx a =>
                 alter (fun x => addg x idx) g
                       (alter (fun x => addl x idx) l a))
           (replicate nP z) !! ph
  = Some (if decide (ph = l)
          then for_upto nV (fun idx acc => addl acc idx) z
          else if decide (ph = g)
               then for_upto nV (fun idx acc => addg acc idx) z
               else z).
Proof.
  intros Hph Hlg. induction nV as [|nV IH]; simpl.
  - rewrite lookup_replicate_2 by exact Hph.
    destruct (decide (ph = l)), (decide (ph = g)); reflexivity.
  - destruct (decide (ph = g)) as [->|Hg].
    + rewrite list_lookup_alter_eq.
      rewrite list_lookup_alter_ne by exact Hlg. rewrite IH.
      destruct (decide (g = l)); [congruence|].
      destruct (decide (g = g)); [reflexivity|congruence].
    + rewrite list_lookup_alter_ne by congruence.
      destruct (decide (ph = l)) as [->|Hl].
      * rewrite list_lookup_alter_eq, IH.
        destruct (decide (l = l)); [reflexivity|congruence].
      * rewrite list_lookup_alter_ne by congruence. rewrite IH.
        destruct (decide (ph = l)); [congruence|].
        destruct (decide (ph = g)); [congruence|reflexivity].
Qed.

(** * The loops of [calculateBoundaryValues_] in closed form *)

Section BoundaryLoops.
Context (T : TypeTag).
Variable problem : Problem T.
Variable element : Element T.
Variable elemDat : ElementVolumeVariables.

Lemma pressureGradLoop_eq idx feGrad n self tmp :
  for_upto n (pressureGradStep elemDat idx feGrad) (self, tmp)
  = (with_potentialGrad_
       (alterEach n (fun ph v =>
                       vadd v (vscale feGrad (pressure (elemDat idx) ph))))
       self,
     match n with
     | O => tmp
     | S k => vscale feGrad (pressure (elemDat idx) k)
     end).
Proof.
  induction n as [|n IH]; simpl.
  - destruct self; reflexivity.
  - rewrite IH. reflexivity.
Qed.

Lemma atIPLoop_eq idx n self :
  for_upto n (atIPStep elemDat idx) self
  = let shape := BoundaryFace.shapeValue (boundaryFace_ self) idx in
    with_molarDensityAtIP_
      (alterEach n (fun ph x => x + molarDensity (elemDat idx) ph * shape))
      (with_densityAtIP_
         (alterEach n (fun ph x => x + density (elemDat idx) ph * shape))
         (with_pressureAtIP_
            (alterEach n (fun ph x => x + pressure (elemDat idx) ph * shape))
            self)).
Proof.
  induction n as [|n IH]; simpl.
  - destruct self; reflexivity.
  - rewrite IH. reflexivity.
Qed.

Lemma vertexStep_eq idx self tmp :
  vertexStep T elemDat idx (self, tmp)
  = let bf := boundaryFace_ self in
    (with_molarDensityAtIP_ (atIPRound T elemDat bf molarDensity idx)
       (with_densityAtIP_ (atIPRound T elemDat bf density idx)
          (with_pressureAtIP_ (atIPRound T elemDat bf pressure idx)
             (with_molarConcGrad_ (molarConcGradRound T elemDat bf idx)
                (with_concentrationGrad_
                   (concentrationGradRound T elemDat bf idx)
                   (with_potentialGrad_
                      (potentialGradRound T elemDat bf idx) self))))),
     tmpAfterVertices T elemDat bf (S idx) tmp).
Proof.
  unfold vertexStep. rewrite pressureGradLoop_eq. simpl.
  rewrite atIPLoop_eq. reflexivity.
Qed.

Lemma vertexLoop_eq n self tmp :
  for_upto n (vertexStep T elemDat) (self, tmp)
  = let bf := boundaryFace_ self in
    (with_molarDensityAtIP_
       (for_upto n (atIPRound T elemDat bf molarDensity))
       (with_densityAtIP_
          (for_upto n (atIPRound T elemDat bf density))
          (with_pressureAtIP_
             (for_upto n (atIPRound T elemDat bf pressure))
             (with_molarConcGrad_
                (for_upto n (molarConcGradRound T elemDat bf))
                (with_concentrationGrad_
                   (for_upto n (concentrationGradRound T elemDat bf))
                   (with_potentialGrad_
                      (for_upto n (potentialGradRound T elemDat bf))
                      self))))),
     tmpAfterVertices T elemDat bf n tmp).
Proof.
  induction n as [|n IH]; simpl.
  - destruct self; reflexivity.
  - rewrite IH, vertexStep_eq. reflexivity.
Qed.

Lemma lookup_potentialGradRounds bf n ph :
  (ph < numPhases T)%nat ->
  for_upto n (potentialGradRound T elemDat bf)
           (replicate (numPhases T) (vzero (dim T))) !! ph
  = Some (gradSum (dim T) (BoundaryFace.grad bf)
                  (fun idx => pressure (elemDat idx) ph) n).
Proof.
  intros Hph.
  apply (lookup_accumulate (numPhases T) n
           (fun v idx ph => vadd v (vscale (BoundaryFace.grad bf idx)
                                      (pressure (elemDat idx) ph)))
           (vzero (dim T)) ph Hph).
Qed.

Lemma lookup_atIPRounds bf q n ph :
  (ph < numPhases T)%nat ->
  for_upto n (atIPRound T elemDat bf q) (replicate (numPhases T) 0) !! ph
  = Some (shapeSum (BoundaryFace.shapeValue bf)
                   (fun idx => q (elemDat idx) ph) n).
Proof.
  intros Hph.
  apply (lookup_accumulate (numPhases T) n
           (fun x idx ph => x + q (elemDat idx) ph
                                * BoundaryFace.shapeValue bf idx) 0 ph Hph).
Qed.

Lemma lookup_concentrationGradRounds bf n ph :
  (ph < numPhases T)%nat -> lPhaseIdx T <> gPhaseIdx T ->
  for_upto n (concentrationGradRound T elemDat bf)
           (replicate (numPhases T) (vzero (dim T))) !! ph
  = Some (if decide (ph = lPhaseIdx T)
          then gradSum (dim T) (BoundaryFace.grad bf)
                 (fun idx => massFraction (fluidState (elemDat idx))
                                          (lPhaseIdx T) (gCompIdx T)) n
          else if decide (ph = gPhaseIdx T)
               then gradSum (dim T) (BoundaryFace.grad bf)
                      (fun idx => massFraction (fluidState (elemDat idx))
                                               (gPhaseIdx T) (lCompIdx T)) n
               else vzero (dim T)).
Proof.
  intros Hph Hlg.
  apply (lookup_accumulate2 (numPhases T) n (lPhaseIdx T) (gPhaseIdx T)
           (fun v idx => vadd v (vscale (BoundaryFace.grad bf idx)
                                   (massFraction (fluidState (elemDat idx))
                                      (lPhaseIdx T) (gCompIdx T))))
           (fun v idx => vadd v (vscale (BoundaryFace.grad bf idx)
                                   (massFraction (fluidState (elemDat idx))
                                      (gPhaseIdx T) (lCompIdx T))))
           (vzero (dim T)) ph Hph Hlg).
Qed.

Lemma lookup_molarConcGradRounds bf n ph :
  (ph < numPhases T)%nat -> lPhaseIdx T <> gPhaseIdx T ->
  for_upto n (molarConcGradRound T elemDat bf)
           (replicate (numPhases T) (vzero (dim T))) !! ph
  = Some (if decide (ph = lPhaseIdx T)
          then gradSum (dim T) (BoundaryFace.grad bf)
                 (fun idx => moleFraction (fluidState (elemDat idx))
                                          (lPhaseIdx T) (gCompIdx T)) n
          else if decide (ph = gPhaseIdx T)
               then gradSum (dim T) (BoundaryFace.grad bf)
                      (fun idx => moleFraction (fluidState (elemDat idx))
                                               (gPhaseIdx T) (lCompIdx T)) n
               else vzero (dim T)).
Proof.
  intros Hph Hlg.
  apply (lookup_accumulate2 (numPhases T) n (lPhaseIdx T) (gPhaseIdx T)
           (fun v idx => vadd v (vscale (BoundaryFace.grad bf idx)
                                   (moleFraction (fluidState (elemDat idx))
                                      (lPhaseIdx T) (gCompIdx T))))
           (fun v idx => vadd v (vscale (BoundaryFace.grad bf idx)
                                   (moleFraction (fluidState (elemDat idx))
                                      (gPhaseIdx T) (lCompIdx T))))
           (vzero (dim T)) ph Hph Hlg).
Qed.

Lemma potentialGradAfter_settled self tmp m ph :
  (ph < m)%nat ->
  potentialGradAfter T problem self tmp (S ph) !!! ph
  = potentialGradAfter T problem self tmp m !!! ph.
Proof.
  intros Hph. unfold potentialGradAfter.
  rewrite !list_lookup_total_alt, !lookup_alterEach_lt by lia.
  reflexivity.
Qed.

Lemma phaseLoop_eq m self tmp :
  for_upto m (phaseStep T problem element elemDat) (self, tmp)
  = (with_porousDiffCoeff_ (for_upto m (porousDiffCoeffRound elemDat self))
       (with_KmvpNormal_
          (for_upto m (KmvpNormalRound T problem element self tmp))
          (with_potentialGrad_
             (fun _ => potentialGradAfter T problem self tmp m) self)),
     match m with
     | O => tmp
     | S k => tmpAtPhase T problem self tmp k
     end).
Proof.
  induction m as [|m IH]; simpl.
  - destruct self; reflexivity.
  - rewrite IH. unfold phaseStep. cbn [fst snd].
    set (t := if EnableGravity T then _ else _).
    assert (Ht : t = tmpAtPhase T problem self tmp m).
    { subst t. unfold tmpAtPhase. destruct (EnableGravity T), m; reflexivity. }
    rewrite Ht. reflexivity.
Qed.

End BoundaryLoops.

Lemma insertEach_alterEach {A : Type} n (v : nat -> A) (a : list A) :
  for_upto n (fun ph a => <[ph := v ph]> a) a
  = alterEach n (fun ph _ => v ph) a.
Proof.
  unfold alterEach. induction n as [|n IH]; simpl; [reflexivity|].
  rewrite IH. apply list_insert_alter.
Qed.

Lemma lookup_insertEach {A : Type} n (v : nat -> A) (z : A) nP ph :
  (ph < n)%nat -> (ph < nP)%nat ->
  for_upto n (fun ph a => <[ph := v ph]> a) (replicate nP z) !! ph
  = Some (v ph).
Proof.
  intros Hn HP. rewrite insertEach_alterEach.
  rewrite lookup_alterEach_lt by exact Hn.
  rewrite lookup_replicate_2 by exact HP. reflexivity.
Qed.

(** * The constructed boundary variables, member by member *)

Section BoundaryResult.
Context (T : TypeTag).
Variable problem : Problem T.
Variable element : Element T.
Variable elemGeom : FVElementGeometry.
Variable boundaryFaceIdx : nat.
Variable elemDat : ElementVolumeVariables.
Variable scvIdx : nat.

Local Abbreviation bf := (boundaryFace elemGeom boundaryFaceIdx).
Local Abbreviation nV := (numVertices elemGeom).
Local Abbreviation result :=
  (construct T problem element elemGeom boundaryFaceIdx elemDat scvIdx).

Lemma construct_scvIdx : scvIdx_ result = scvIdx.
Proof.
  unfold construct, calculateBoundaryValues_.
  rewrite vertexLoop_eq, phaseLoop_eq. reflexivity.
Qed.

Lemma construct_boundaryFace : boundaryFace_ result = bf.
Proof.
  unfold construct, calculateBoundaryValues_.
  rewrite vertexLoop_eq, phaseLoop_eq. reflexivity.
Qed.

Lemma construct_densityAtIP ph :
  (ph < numPhases T)%nat ->
  densityAtIP result ph = densityIP elemGeom boundaryFaceIdx elemDat ph.
Proof.
  intros Hph.
  unfold densityAtIP, construct, calculateBoundaryValues_.
  rewrite vertexLoop_eq, phaseLoop_eq. cbn.
  apply list_lookup_total_correct.
  apply lookup_atIPRounds. exact Hph.
Qed.

Lemma construct_potentialGrad ph :
  (ph < numPhases T)%nat ->
  potentialGrad result ph
  = vsub (pressureGrad T elemGeom boundaryFaceIdx elemDat ph)
         (subtracted T problem elemGeom boundaryFaceIdx elemDat ph).
Proof.
  intros Hph.
  unfold potentialGrad, construct, calculateBoundaryValues_.
  rewrite vertexLoop_eq, phaseLoop_eq. cbn.
  apply list_lookup_total_correct.
  unfold potentialGradAfter. rewrite lookup_alterEach_lt by exact Hph. cbn.
  rewrite lookup_potentialGradRounds by exact Hph.
  cbn. unfold tmpAtPhase, subtracted. cbn.
  destruct (EnableGravity T); [|reflexivity].
  rewrite (list_lookup_total_correct _ ph
             (densityIP elemGeom boundaryFaceIdx elemDat ph));
    [reflexivity|].
  apply lookup_atIPRounds. exact Hph.
Qed.

Lemma construct_concentrationGrad ph :
  (ph < numPhases T)%nat -> lPhaseIdx T <> gPhaseIdx T ->
  concentrationGrad result ph
  = if decide (ph = lPhaseIdx T)
    then gradSum (dim T) (BoundaryFace.grad bf)
           (fun idx => massFraction (fluidState (elemDat idx))
                                    (lPhaseIdx T) (gCompIdx T)) nV
    else if decide (ph = gPhaseIdx T)
         then gradSum (dim T) (BoundaryFace.grad bf)
                (fun idx => massFraction (fluidState (elemDat idx))
                                         (gPhaseIdx T) (lCompIdx T)) nV
         else vzero (dim T).
Proof.
  intros Hph Hlg.
  unfold concentrationGrad, construct, calculateBoundaryValues_.
  rewrite vertexLoop_eq, phaseLoop_eq. cbn.
  apply list_lookup_total_correct.
  apply lookup_concentrationGradRounds; assumption.
Qed.

Lemma construct_molarConcGrad ph :
  (ph < numPhases T)%nat -> lPhaseIdx T <> gPhaseIdx T ->
  molarConcGrad result ph
  = if decide (ph = lPhaseIdx T)
    then gradSum (dim T) (BoundaryFace.grad bf)
           (fun idx => moleFraction (fluidState (elemDat idx))
                                    (lPhaseIdx T) (gCompIdx T)) nV
    else if decide (ph = gPhaseIdx T)
         then gradSum (dim T) (BoundaryFace.grad bf)
                (fun idx => moleFraction (fluidState (elemDat idx))
                                         (gPhaseIdx T) (lCompIdx T)) nV
         else vzero (dim T).
Proof.
  intros Hph Hlg.
  unfold molarConcGrad, construct, calculateBoundaryValues_.
  rewrite vertexLoop_eq, phaseLoop_eq. cbn.
  apply list_lookup_total_correct.
  apply lookup_molarConcGradRounds; assumption.
Qed.

Lemma construct_KmvpNormal ph :
  (ph < numPhases T)%nat ->
  KmvpNormal result ph
  = - dot (mv (permeabilityTensor T
                 (intrinsicPermeability (spatialParameters problem)
                    element elemGeom scvIdx))
              (potentialGrad result ph))
          (BoundaryFace.normal bf).
Proof.
  intros Hph.
  unfold KmvpNormal, potentialGrad, construct, calculateBoundaryValues_.
  rewrite vertexLoop_eq, phaseLoop_eq. cbn.
  apply list_lookup_total_correct.
  unfold KmvpNormalRound.
  rewrite (lookup_insertEach (numPhases T) _ 0 (numPhases T) ph Hph Hph).
  rewrite (potentialGradAfter_settled T problem _ _ (numPhases T) ph Hph).
  reflexivity.
Qed.

Lemma construct_porousDiffCoeff ph :
  (ph < numPhases T)%nat ->
  porousDiffCoeff result ph = porousDiffCoeffAt (elemDat scvIdx) ph.
Proof.
  intros Hph.
  unfold porousDiffCoeff, construct, calculateBoundaryValues_.
  rewrite vertexLoop_eq, phaseLoop_eq. cbn.
  apply list_lookup_total_correct.
  unfold porousDiffCoeffRound.
  apply (lookup_insertEach (numPhases T) _ (Some 0) (numPhases T) ph Hph Hph).
Qed.

End BoundaryResult.

(** * The effective diffusion coefficient *)

Lemma porousDiffCoeffAt_absent vertDat ph :
  saturation vertDat ph <= 0 -> porousDiffCoeffAt vertDat ph = Some 0.
Proof.
  intros Hs. unfold porousDiffCoeffAt.
  destruct (Rle_dec (saturation vertDat ph) 0) as [_|Hn];
    [reflexivity | contradiction].
Qed.

Lemma Rpower_minus_two x : 0 < x -> Rpower x (-2) = / (x * x).
Proof.
  intros Hx. replace (-2) with (- INR 2) by (simpl; lra).
  rewrite Rpower_Ropp, Rpower_pow by exact Hx.
  simpl. rewrite Rmult_1_r. reflexivity.
Qed.

Lemma porousDiffCoeffAt_present vertDat ph :
  0 < saturation vertDat ph -> 0 < porosity vertDat ->
  porousDiffCoeffAt vertDat ph
  = Some (porosity vertDat * saturation vertDat ph
          * (Rpower (porosity vertDat) (-2)
             * Rpower (porosity vertDat * saturation vertDat ph) (7 / 3))
          * diffCoeff vertDat ph).
Proof.
  intros Hs Hphi. unfold porousDiffCoeffAt, fdiv, cmath.pow.
  destruct (Rle_dec (saturation vertDat ph) 0) as [Hle|_]; [lra|].
  destruct (Req_dec_T (porosity vertDat * porosity vertDat) 0) as [Hz|_];
    [nra|].
  destruct (Rlt_dec 0 (porosity vertDat * saturation vertDat ph)) as [_|Hn];
    [|exfalso; apply Hn; nra].
  cbn. rewrite Rpower_minus_two by exact Hphi.
  do 2 f_equal. unfold Rdiv. rewrite Rmult_1_l. reflexivity.
Qed.

(** C2.  For a phase whose saturation at the designated sub-control
    volume is zero or negative, the constructed effective diffusion
    coefficient is exactly zero, whatever the porosity and the molecular
    diffusion coefficient are; the result is a finite value, so neither
    the division nor [pow] of the tortuosity expression was evaluated
    (either would yield [None] for a zero porosity or a negative base). *)
Theorem C2_absent_phase_has_zero_diffusion
    (T : TypeTag) (problem : Problem T) (element : Element T)
    (elemGeom : FVElementGeometry) (boundaryFaceIdx : nat)
    (elemDat : ElementVolumeVariables) (scvIdx : nat) (phaseIdx : nat) :
  (phaseIdx < numPhases T)%nat ->
  saturation (elemDat scvIdx) phaseIdx <= 0 ->
  porousDiffCoeff
    (construct T problem element elemGeom boundaryFaceIdx elemDat scvIdx)
    phaseIdx
  = Some 0.
Proof.
  intros Hph Hs. rewrite construct_porousDiffCoeff by exact Hph.
  apply porousDiffCoeffAt_absent. exact Hs.
Qed.

(** The absent liquid phase of the example, in a medium of porosity
    zero, for which the tortuosity expression would divide by zero. *)
Lemma C2_witness :
  porousDiffCoeff (Example.boundaryVariables true 0) 0 = Some 0.
Proof.
  apply (C2_absent_phase_has_zero_diffusion
           (Example.tag true) (Example.problem true) tt Example.geometry 0
           (Example.elemDat 0) 0 0).
  - simpl. lia.
  - simpl. lra.
Defined.

(** C3.  For a phase of positive saturation [Sw] at the designated
    sub-control volume of positive porosity [phi], the constructed
    effective diffusion coefficient is [phi * Sw * tau * D] with
    [tau = phi^-2 * (phi * Sw)^(7/3)] and [D] the molecular diffusion
    coefficient of the phase. *)
Theorem C3_present_phase_diffusion
    (T : TypeTag) (problem : Problem T) (element : Element T)
    (elemGeom : FVElementGeometry) (boundaryFaceIdx : nat)
    (elemDat : ElementVolumeVariables) (scvIdx : nat) (phaseIdx : nat) :
  let phi := porosity (elemDat scvIdx) in
  let Sw := saturation (elemDat scvIdx) phaseIdx in
  let tau := Rpower phi (-2) * Rpower (phi * Sw) (7 / 3) in
  (phaseIdx < numPhases T)%nat ->
  0 < Sw -> 0 < phi ->
  porousDiffCoeff
    (construct T problem element elemGeom boundaryFaceIdx elemDat scvIdx)
    phaseIdx
  = Some (phi * Sw * tau * diffCoeff (elemDat scvIdx) phaseIdx).
Proof.
  intros phi Sw tau Hph Hs Hphi.
  rewrite construct_porousDiffCoeff by exact Hph.
  apply porousDiffCoeffAt_present; assumption.
Qed.

(** The gas phase of the example in a medium of porosity 1/2. *)
Lemma C3_witness :
  porousDiffCoeff (Example.boundaryVariables true (1 / 2)) 1
  = Some (1 / 2 * 1
          * (Rpower (1 / 2) (-2) * Rpower (1 / 2 * 1) (7 / 3)) * 3).
Proof.
  apply (C3_present_phase_diffusion
           (Example.tag true) (Example.problem true) tt Example.geometry 0
           (Example.elemDat (1 / 2)) 0 1).
  - simpl. lia.
  - simpl. lra.
  - simpl. lra.
Defined.

(** * The Darcy flux intensity *)

(** C4.  For every phase, [KmvpNormal] is the negated scalar product of
    [K] applied to the potential gradient of the phase with the face
    normal, where [K] is the tensor built from the intrinsic
    permeability at the designated sub-control volume; so a potential
    gradient whose [K]-weighted projection on the normal is negative
    gives a strictly positive flux intensity. *)
Theorem C4_KmvpNormal_is_negated_projection
    (T : TypeTag) (problem : Problem T) (element : Element T)
    (elemGeom : FVElementGeometry) (boundaryFaceIdx : nat)
    (elemDat : ElementVolumeVariables) (scvIdx : nat) (phaseIdx : nat) :
  let self :=
    construct T problem element elemGeom boundaryFaceIdx elemDat scvIdx in
  let K :=
    permeabilityTensor T
      (intrinsicPermeability (spatialParameters problem)
         element elemGeom scvIdx) in
  let projection :=
    dot (mv K (potentialGrad self phaseIdx))
        (BoundaryFace.normal (boundaryFace elemGeom boundaryFaceIdx)) in
  (phaseIdx < numPhases T)%nat ->
  KmvpNormal self phaseIdx = - projection
  /\ (projection < 0 -> 0 < KmvpNormal self phaseIdx).
Proof.
  intros self K projection Hph.
  assert (HK : KmvpNormal self phaseIdx = - projection)
    by (apply construct_KmvpNormal; exact Hph).
  split; [exact HK|]. intros Hneg. rewrite HK. lra.
Qed.

Lemma Example_potentialGrad_gravity phi ph :
  (ph < 2)%nat ->
  potentialGrad (Example.boundaryVariables true phi) ph = [0; 1].
Proof.
  intros Hph. unfold Example.boundaryVariables.
  rewrite construct_potentialGrad by exact Hph.
  unfold pressureGrad, subtracted, densityIP, gradSum, shapeSum. simpl.
  f_equal; [lra|f_equal; lra].
Qed.

Lemma Example_potentialGrad3D ph :
  (ph < 2)%nat ->
  potentialGrad Example.boundaryVariables3D ph = [0; 0; 1].
Proof.
  intros Hph. unfold Example.boundaryVariables3D.
  rewrite construct_potentialGrad by exact Hph.
  unfold pressureGrad, subtracted, densityIP, gradSum, shapeSum. simpl.
  f_equal; [lra|f_equal; [lra|f_equal; lra]].
Qed.

(** In the example, gravity pulls the fluid out through the face. *)
Lemma C4_witness :
  KmvpNormal (Example.boundaryVariables true (1 / 2)) 0 = 1
  /\ 0 < KmvpNormal (Example.boundaryVariables true (1 / 2)) 0.
Proof.
  destruct (C4_KmvpNormal_is_negated_projection
              (Example.tag true) (Example.problem true) tt Example.geometry 0
              (Example.elemDat (1 / 2)) 0 0) as [Heq Hpos].
  - simpl. lia.
  - fold (Example.boundaryVariables true (1 / 2)) in Heq, Hpos.
    rewrite (Example_potentialGrad_gravity (1 / 2) 0) in Heq, Hpos
      by (simpl; lia).
    split.
    + rewrite Heq. cbn. lra.
    + apply Hpos. cbn. lra.
Defined.

(** * The permeability tensor *)

Lemma lookup_total_vzero d j : vzero d !!! j = 0.
Proof.
  unfold vzero. revert j.
  induction d as [|d IH]; intros [|j]; simpl; try reflexivity. apply IH.
Qed.

Lemma lookup_total_tzero_rows n m i j :
  (replicate n (vzero m) !!! i) !!! j = 0.
Proof.
  revert i. induction n as [|n IH]; intros [|i]; simpl; try reflexivity.
  - apply lookup_total_vzero.
  - apply IH.
Qed.

Lemma permeabilityTensor_unfold T k d :
  dim T = S (S d) ->
  permeabilityTensor T k
  = (k :: 0 :: vzero d) :: (0 :: k :: vzero d)
      :: replicate d (vzero (S (S d))).
Proof.
  intros Hd. unfold permeabilityTensor, tset, tzero. rewrite Hd. reflexivity.
Qed.

Lemma permeabilityTensor_entry T k i j :
  (2 <= dim T)%nat ->
  (permeabilityTensor T k !!! i) !!! j
  = if decide (i = j /\ (i < 2)%nat) then k else 0.
Proof.
  intros Hd. destruct (dim T) as [|[|d]] eqn:E; [lia|lia|].
  rewrite (permeabilityTensor_unfold T k d E).
  case_decide as H.
  - destruct H as [<- Hi].
    destruct i as [|[|i]]; [reflexivity|reflexivity|lia].
  - destruct i as [|[|i]], j as [|[|j]]; simpl;
      try reflexivity; try (exfalso; apply H; lia);
      try apply lookup_total_vzero;
      try apply (lookup_total_tzero_rows d (S (S d)) i).
Qed.

Lemma mv_permeabilityTensor T k d x :
  dim T = S (S d) ->
  mv (permeabilityTensor T k) x
  = (k * (x !!! 0%nat)) :: (k * (x !!! 1%nat)) :: vzero d.
Proof.
  intros Hd. rewrite (permeabilityTensor_unfold T k d Hd).
  unfold mv. simpl. fold (mv (replicate d (vzero (S (S d)))) x).
  rewrite mv_tzero_rows.
  destruct x as [|x0 [|x1 xs]]; simpl.
  - f_equal; [|f_equal]; cbn; lra.
  - f_equal; [|f_equal]; cbn; lra.
  - rewrite (dot_vzero_l d xs). f_equal; [|f_equal]; cbn; lra.
Qed.

Lemma dot_mv_permeabilityTensor T k x n :
  (2 <= dim T)%nat ->
  dot (mv (permeabilityTensor T k) x) n
  = k * (x !!! 0%nat * n !!! 0%nat + x !!! 1%nat * n !!! 1%nat).
Proof.
  intros Hd. destruct (dim T) as [|[|d]] eqn:E; [lia|lia|].
  rewrite (mv_permeabilityTensor T k d x E).
  destruct n as [|n0 [|n1 ns]]; simpl.
  - cbn. lra.
  - cbn. lra.
  - rewrite (dot_vzero_l d ns). cbn. lra.
Qed.

(** C10.  In a grid of dimension two or more, the tensor built from the
    scalar permeability [k] holds [k] at the entries (0,0) and (1,1) and
    zero at every other entry; so [KmvpNormal] of a phase is
    [- k * (potentialGrad[0] * normal[0] + potentialGrad[1] * normal[1])],
    in which no third component of the potential gradient or of the
    normal takes part. *)
Theorem C10_permeability_on_first_two_axes
    (T : TypeTag) (problem : Problem T) (element : Element T)
    (elemGeom : FVElementGeometry) (boundaryFaceIdx : nat)
    (elemDat : ElementVolumeVariables) (scvIdx : nat) (phaseIdx : nat) :
  let self :=
    construct T problem element elemGeom boundaryFaceIdx elemDat scvIdx in
  let k :=
    intrinsicPermeability (spatialParameters problem)
      element elemGeom scvIdx in
  let pg := potentialGrad self phaseIdx in
  let n := BoundaryFace.normal (boundaryFace elemGeom boundaryFaceIdx) in
  (2 <= dim T)%nat ->
  (phaseIdx < numPhases T)%nat ->
  (forall i j, (i < dim T)%nat -> (j < dim T)%nat ->
     (permeabilityTensor T k !!! i) !!! j
     = if decide (i = j /\ (i < 2)%nat) then k else 0)
  /\ KmvpNormal self phaseIdx
     = - (k * (pg !!! 0%nat * n !!! 0%nat + pg !!! 1%nat * n !!! 1%nat)).
Proof.
  intros self k pg n Hd Hph. split.
  - intros i j _ _. apply permeabilityTensor_entry. exact Hd.
  - subst self pg n k. rewrite construct_KmvpNormal by exact Hph.
    rewrite dot_mv_permeabilityTensor by exact Hd. reflexivity.
Qed.

(** In three dimensions, with gravity and the normal along the third
    axis, the potential gradient is [(0, 0, 1)] and the flux intensity
    is zero. *)
Lemma C10_witness :
  (permeabilityTensor Example.tag3D 1 !!! 2%nat) !!! 2%nat = 0
  /\ potentialGrad Example.boundaryVariables3D 0 = [0; 0; 1]
  /\ KmvpNormal Example.boundaryVariables3D 0 = 0.
Proof.
  destruct (C10_permeability_on_first_two_axes
              Example.tag3D Example.problem3D tt Example.geometry3D 0
              (Example.elemDat (1 / 2)) 0 0) as [HK Hflux].
  - simpl. lia.
  - simpl. lia.
  - fold Example.boundaryVariables3D in Hflux.
    rewrite (Example_potentialGrad3D 0) in Hflux by lia.
    split; [|split].
    + apply (HK 2%nat 2%nat); simpl; lia.
    + apply Example_potentialGrad3D. lia.
    + rewrite Hflux. cbn. lra.
Defined.

(** * The potential gradient *)

Lemma potentialGrad_without_gravity
    (T : TypeTag) (problem : Problem T) (element : Element T)
    (elemGeom : FVElementGeometry) (boundaryFaceIdx : nat)
    (elemDat : ElementVolumeVariables) (scvIdx : nat) (ph : nat) :
  EnableGravity T = false ->
  (ph < numPhases T)%nat ->
  potentialGrad
    (construct T problem element elemGeom boundaryFaceIdx elemDat scvIdx) ph
  = vsub (pressureGrad T elemGeom boundaryFaceIdx elemDat ph)
         (staleTmp T elemGeom boundaryFaceIdx elemDat).
Proof.
  intros Hg Hph. rewrite construct_potentialGrad by exact Hph.
  unfold subtracted. rewrite Hg. reflexivity.
Qed.

Lemma potentialGrad_with_gravity
    (T : TypeTag) (problem : Problem T) (element : Element T)
    (elemGeom : FVElementGeometry) (boundaryFaceIdx : nat)
    (elemDat : ElementVolumeVariables) (scvIdx : nat) (ph : nat) :
  EnableGravity T = true ->
  (ph < numPhases T)%nat ->
  let self :=
    construct T problem element elemGeom boundaryFaceIdx elemDat scvIdx in
  potentialGrad self ph
  = vsub (pressureGrad T elemGeom boundaryFaceIdx elemDat ph)
         (vscale (gravity problem) (densityAtIP self ph)).
Proof.
  intros Hg Hph self. subst self.
  rewrite construct_potentialGrad, construct_densityAtIP by exact Hph.
  unfold subtracted. rewrite Hg. reflexivity.
Qed.

Lemma Example_pressureGrad g phi ph :
  pressureGrad (Example.tag g) Example.geometry 0 (Example.elemDat phi) ph
  = [0; 0].
Proof.
  unfold pressureGrad, gradSum. simpl. f_equal; [lra|f_equal; lra].
Qed.

Lemma Example_potentialGrad_no_gravity phi ph :
  (ph < 2)%nat ->
  potentialGrad (Example.boundaryVariables false phi) ph = [- (1 / 2); 0].
Proof.
  intros Hph. unfold Example.boundaryVariables.
  rewrite potentialGrad_without_gravity by (reflexivity || exact Hph).
  unfold pressureGrad, staleTmp, gradSum. simpl.
  f_equal; [lra|f_equal; lra].
Qed.

(** C1, at an input where the code departs from it.  Gravity is
    disabled, the pressure is the same at both vertices, so the raw
    pressure gradient of the liquid phase is zero; the constructed
    potential gradient is [(-1/2, 0)]: line 205 subtracts the value that
    [tmp] kept from the last round of the vertex loop, the gradient of
    the last vertex times the mole fraction there. *)
Theorem C1_gravity_off_subtracts_stale_tmp :
  EnableGravity (Example.tag false) = false
  /\ pressureGrad (Example.tag false) Example.geometry 0
                  (Example.elemDat (1 / 2)) 0 = [0; 0]
  /\ staleTmp (Example.tag false) Example.geometry 0
              (Example.elemDat (1 / 2)) = [1 / 2; 0]
  /\ potentialGrad (Example.boundaryVariables false (1 / 2)) 0
     = [- (1 / 2); 0]
  /\ potentialGrad (Example.boundaryVariables false (1 / 2)) 0
     <> pressureGrad (Example.tag false) Example.geometry 0
                     (Example.elemDat (1 / 2)) 0.
Proof.
  split; [reflexivity|]. split; [apply Example_pressureGrad|].
  split.
  { unfold staleTmp. simpl. f_equal; [lra|f_equal; lra]. }
  split; [apply Example_potentialGrad_no_gravity; lia|].
  rewrite Example_pressureGrad, Example_potentialGrad_no_gravity by lia.
  intros H. assert (H' : - (1 / 2) = 0) by congruence. lra.
Qed.

(** * Uniform fields on a boundary face *)

Lemma mv_vzero K d : mv K (vzero d) = vzero (length K).
Proof.
  unfold mv, vzero. induction K as [|row K IH]; simpl; [reflexivity|].
  rewrite IH. f_equal. apply (dot_vzero_r row d).
Qed.

Lemma Example_uniformInputs phi :
  uniformInputs Example.geometry (Example.elemDat phi).
Proof. intros idx _. repeat split. Qed.

Lemma Example_gradsCancel g : gradsCancel (Example.tag g) Example.geometry 0.
Proof.
  unfold gradsCancel, vsum, vzero. simpl. f_equal; [lra|f_equal; lra].
Qed.

(** C5, refuted as stated.  With gravity enabled, the uniform example
    has the potential gradient [(0, 1)] and the flux intensity 1. *)
Lemma C5_counterexample :
  ~ uniformFieldGivesZeroFlux (Example.tag true) (Example.problem true) tt
      Example.geometry 0 (Example.elemDat (1 / 2)) 0.
Proof.
  intros Hclaim.
  destruct (Hclaim (Example_uniformInputs (1 / 2)) (Example_gradsCancel true)
              0%nat) as [Hpg _].
  - simpl. lia.
  - fold (Example.boundaryVariables true (1 / 2)) in Hpg.
    rewrite (Example_potentialGrad_gravity (1 / 2) 0) in Hpg by lia.
    assert (H : 1 = 0) by (unfold vzero in Hpg; simpl in Hpg; congruence).
    lra.
Qed.

Lemma uniform_pressureGrad T elemGeom boundaryFaceIdx elemDat ph :
  uniformInputs elemGeom elemDat ->
  gradsCancel T elemGeom boundaryFaceIdx ->
  pressureGrad T elemGeom boundaryFaceIdx elemDat ph = vzero (dim T).
Proof.
  intros Hu Hc. unfold pressureGrad.
  apply (gradSum_uniform_zero _ _ _ _ (pressure (elemDat 0%nat) ph));
    [|exact Hc].
  intros idx Hidx. apply (Hu idx Hidx).
Qed.

Lemma uniform_concentrationGrad
    (T : TypeTag) (problem : Problem T) (element : Element T)
    (elemGeom : FVElementGeometry) (boundaryFaceIdx : nat)
    (elemDat : ElementVolumeVariables) (scvIdx : nat) (ph : nat) :
  uniformInputs elemGeom elemDat ->
  gradsCancel T elemGeom boundaryFaceIdx ->
  lPhaseIdx T <> gPhaseIdx T ->
  (ph < numPhases T)%nat ->
  let self :=
    construct T problem element elemGeom boundaryFaceIdx elemDat scvIdx in
  concentrationGrad self ph = vzero (dim T)
  /\ molarConcGrad self ph = vzero (dim T).
Proof.
  intros Hu Hc Hlg Hph self. subst self.
  rewrite construct_concentrationGrad, construct_molarConcGrad by assumption.
  split; repeat case_decide; try reflexivity;
    (eapply gradSum_uniform_zero; [|exact Hc]);
    intros idx Hidx; apply (Hu idx Hidx).
Qed.

(** C5, amended.  On a boundary face with uniform inputs and cancelling
    shape-function gradients, the concentration and molar-concentration
    gradients of every phase are zero.  With gravity enabled, the
    potential gradient of a phase is the negated buoyancy term
    [gravity * densityAtIP], and the Darcy flux intensity the negated
    projection of [K] applied to it; both are zero when the buoyancy
    term is the zero vector. *)
Theorem C5_uniform_field_leaves_buoyancy
    (T : TypeTag) (problem : Problem T) (element : Element T)
    (elemGeom : FVElementGeometry) (boundaryFaceIdx : nat)
    (elemDat : ElementVolumeVariables) (scvIdx : nat) (ph : nat) :
  let self :=
    construct T problem element elemGeom boundaryFaceIdx elemDat scvIdx in
  let buoyancy := vscale (gravity problem) (densityAtIP self ph) in
  let K :=
    permeabilityTensor T
      (intrinsicPermeability (spatialParameters problem)
         element elemGeom scvIdx) in
  let normal := BoundaryFace.normal (boundaryFace elemGeom boundaryFaceIdx) in
  uniformInputs elemGeom elemDat ->
  gradsCancel T elemGeom boundaryFaceIdx ->
  lPhaseIdx T <> gPhaseIdx T ->
  (ph < numPhases T)%nat ->
  concentrationGrad self ph = vzero (dim T)
  /\ molarConcGrad self ph = vzero (dim T)
  /\ (EnableGravity T = true ->
      potentialGrad self ph = vsub (vzero (dim T)) buoyancy
      /\ KmvpNormal self ph
         = - dot (mv K (vsub (vzero (dim T)) buoyancy)) normal
      /\ (buoyancy = vzero (dim T) ->
          potentialGrad self ph = vzero (dim T)
          /\ KmvpNormal self ph = 0)).
Proof.
  intros self buoyancy K normal Hu Hc Hlg Hph.
  destruct (uniform_concentrationGrad T problem element elemGeom
              boundaryFaceIdx elemDat scvIdx ph Hu Hc Hlg Hph) as [Hcg Hmg].
  split; [exact Hcg|]. split; [exact Hmg|]. intros Hg.
  assert (Hpg : potentialGrad self ph = vsub (vzero (dim T)) buoyancy).
  { subst self buoyancy.
    rewrite potentialGrad_with_gravity by assumption.
    rewrite uniform_pressureGrad by assumption. reflexivity. }
  assert (HK : KmvpNormal self ph
               = - dot (mv K (vsub (vzero (dim T)) buoyancy)) normal).
  { rewrite <- Hpg. apply construct_KmvpNormal. exact Hph. }
  split; [exact Hpg|]. split; [exact HK|]. intros Hb.
  assert (Hz : vsub (vzero (dim T)) buoyancy = vzero (dim T)).
  { rewrite Hb. apply vsub_vzero_r, length_vzero. }
  split; [rewrite Hpg; exact Hz|].
  rewrite HK, Hz, mv_vzero, dot_vzero_l. lra.
Qed.

(** The uniform example with gravity enabled and a zero gravity vector:
    all gradients and the flux intensity are zero. *)
Lemma C5_witness :
  concentrationGrad Example.weightlessVariables 0 = [0; 0]
  /\ molarConcGrad Example.weightlessVariables 0 = [0; 0]
  /\ potentialGrad Example.weightlessVariables 0 = [0; 0]
  /\ KmvpNormal Example.weightlessVariables 0 = 0.
Proof.
  destruct (C5_uniform_field_leaves_buoyancy
              (Example.tag true) Example.problemWeightless tt
              Example.geometry 0 (Example.elemDat (1 / 2)) 0 0)
    as (Hcg & Hmg & Hgrav).
  - apply Example_uniformInputs.
  - apply Example_gradsCancel.
  - simpl. lia.
  - simpl. lia.
  - destruct (Hgrav eq_refl) as (_ & _ & Hzero).
    destruct Hzero as [Hpg HK].
    + unfold vzero. simpl. f_equal; [lra|f_equal; lra].
    + repeat split; assumption.
Defined.

(** * The temperature gradient *)

Lemma temperatureGradLoop_rounds elemGeom scvfIdx elemDat n z t :
  for_upto n (temperatureGradStep elemGeom scvfIdx elemDat) (z, t)
  = (for_upto n
       (fun idx acc =>
          vadd acc
            (vscale (SubControlVolumeFace.grad
                       (subContVolFace elemGeom scvfIdx) idx)
                    (temperature (elemDat idx)))) z,
     match n with
     | O => t
     | S k => vscale (SubControlVolumeFace.grad
                        (subContVolFace elemGeom scvfIdx) k)
                     (temperature (elemDat k))
     end).
Proof.
  induction n as [|n IH]; simpl; [reflexivity|].
  rewrite IH. reflexivity.
Qed.

Lemma temperatureGradLoop_fst T elemGeom scvfIdx elemDat :
  fst (temperatureGradLoop T elemGeom scvfIdx elemDat)
  = gradSum (dimWorld T)
      (SubControlVolumeFace.grad (subContVolFace elemGeom scvfIdx))
      (fun idx => temperature (elemDat idx)) (numVertices elemGeom).
Proof.
  unfold temperatureGradLoop.
  rewrite temperatureGradLoop_rounds. reflexivity.
Qed.

Lemma uniform_temperatureGrad T elemGeom scvfIdx elemDat :
  uniformField elemGeom elemDat temperature ->
  scvfGradsCancel T elemGeom scvfIdx ->
  fst (temperatureGradLoop T elemGeom scvfIdx elemDat) = vzero (dimWorld T).
Proof.
  intros Hu Hc. rewrite temperatureGradLoop_fst.
  apply (gradSum_uniform_zero _ _ _ _ (temperature (elemDat 0%nat)));
    [exact Hu | exact Hc].
Qed.

(** C6.  Where every vertex holds the same value of a mass fraction, a
    mole fraction or the temperature, and the shape-function gradients
    of the face sum to zero, the reconstructed gradient of that field is
    the zero vector: the concentration and molar-concentration gradients
    of the boundary variables, and the temperature gradient of the
    non-isothermal flux variables. *)
Theorem C6_uniform_scalar_has_zero_gradient
    (T : TypeTag) (problem : Problem T) (element : Element T)
    (elemGeom : FVElementGeometry) (boundaryFaceIdx scvfIdx : nat)
    (elemDat : ElementVolumeVariables) (scvIdx : nat) :
  let self :=
    construct T problem element elemGeom boundaryFaceIdx elemDat scvIdx in
  let uniform := uniformField elemGeom elemDat in
  let l := lPhaseIdx T in
  let g := gPhaseIdx T in
  ((l < numPhases T)%nat -> (g < numPhases T)%nat -> l <> g ->
   gradsCancel T elemGeom boundaryFaceIdx ->
   (uniform (fun v => massFraction (fluidState v) l (gCompIdx T)) ->
    concentrationGrad self l = vzero (dim T))
   /\ (uniform (fun v => moleFraction (fluidState v) l (gCompIdx T)) ->
       molarConcGrad self l = vzero (dim T))
   /\ (uniform (fun v => massFraction (fluidState v) g (lCompIdx T)) ->
       concentrationGrad self g = vzero (dim T))
   /\ (uniform (fun v => moleFraction (fluidState v) g (lCompIdx T)) ->
       molarConcGrad self g = vzero (dim T)))
  /\ (scvfGradsCancel T elemGeom scvfIdx ->
      uniform temperature ->
      fst (temperatureGradLoop T elemGeom scvfIdx elemDat)
      = vzero (dimWorld T)).
Proof.
  intros self uniform l g. split.
  - intros Hl Hg Hlg Hc. subst self l g.
    repeat split; intros Hu;
      rewrite ?construct_concentrationGrad, ?construct_molarConcGrad
        by assumption;
      repeat case_decide; try congruence;
      (eapply gradSum_uniform_zero; [exact Hu | exact Hc]).
  - intros Hc Hu. apply uniform_temperatureGrad; assumption.
Qed.

Lemma Example_uniformField phi f :
  uniformField Example.geometry (Example.elemDat phi) f.
Proof. intros idx _. reflexivity. Qed.

Lemma Example_scvfGradsCancel g :
  scvfGradsCancel (Example.tag g) Example.geometry 0.
Proof.
  unfold scvfGradsCancel, vsum, vzero. simpl. f_equal; [lra|f_equal; lra].
Qed.

(** The example: fractions 1/2 and temperature 300 at both vertices. *)
Lemma C6_witness :
  concentrationGrad (Example.boundaryVariables true (1 / 2)) 0 = [0; 0]
  /\ molarConcGrad (Example.boundaryVariables true (1 / 2)) 0 = [0; 0]
  /\ concentrationGrad (Example.boundaryVariables true (1 / 2)) 1 = [0; 0]
  /\ molarConcGrad (Example.boundaryVariables true (1 / 2)) 1 = [0; 0]
  /\ fst (temperatureGradLoop (Example.tag true) Example.geometry 0
            (Example.elemDat (1 / 2))) = [0; 0].
Proof.
  destruct (C6_uniform_scalar_has_zero_gradient
              (Example.tag true) (Example.problem true) tt Example.geometry
              0 0 (Example.elemDat (1 / 2)) 0) as [Hboundary Htemperature].
  destruct Hboundary as (Hcl & Hml & Hcg & Hmg).
  - simpl. lia.
  - simpl. lia.
  - simpl. lia.
  - apply Example_gradsCancel.
  - split; [apply Hcl, Example_uniformField|].
    split; [apply Hml, Example_uniformField|].
    split; [apply Hcg, Example_uniformField|].
    split; [apply Hmg, Example_uniformField|].
    apply Htemperature;
      [apply Example_scvfGradsCancel | apply Example_uniformField].
Defined.

(** * The conductive heat flux *)

(** C7.  The non-isothermal constructor computes the temperature
    gradient as the sum over the vertices of the element of the face's
    shape-function gradient times the temperature of the vertex, and
    sets the normal heat flux to the scalar product of the vector that
    the heat-flux law of the spatial parameters returns with the face
    normal.  For a uniform temperature, cancelling shape-function
    gradients and a law that maps a zero temperature gradient to the
    zero vector, the normal heat flux is zero. *)
Theorem C7_normal_heat_flux
    (T : TypeTag)
    (ParentType : Problem T -> Element T -> FVElementGeometry -> nat ->
                  ElementVolumeVariables -> TwoPTwoCFluxVariables T)
    (problem : Problem T) (element : Element T)
    (elemGeom : FVElementGeometry) (scvfIdx : nat)
    (elemDat : ElementVolumeVariables) :
  let self :=
    constructNI T ParentType problem element elemGeom scvfIdx elemDat in
  let face := subContVolFace elemGeom scvfIdx in
  let locals := temperatureGradLoop T elemGeom scvfIdx elemDat in
  let temperatureGrad :=
    gradSum (dimWorld T) (SubControlVolumeFace.grad face)
            (fun vertIdx => temperature (elemDat vertIdx))
            (numVertices elemGeom) in
  let law := matrixHeatFlux (spatialParameters problem) in
  fst locals = temperatureGrad
  /\ normalMatrixHeatFlux self
     = dot (law (snd locals) (parent self) elemDat temperatureGrad
                element elemGeom scvfIdx)
           (SubControlVolumeFace.normal face)
  /\ (uniformField elemGeom elemDat temperature ->
      scvfGradsCancel T elemGeom scvfIdx ->
      (forall tmp fluxDat,
         law tmp fluxDat elemDat (vzero (dimWorld T)) element elemGeom scvfIdx
         = vzero (dimWorld T)) ->
      normalMatrixHeatFlux self = 0).
Proof.
  intros self face locals temperatureGrad law.
  assert (Hgrad : fst locals = temperatureGrad)
    by apply temperatureGradLoop_fst.
  assert (Hflux : normalMatrixHeatFlux self
                  = dot (law (snd locals) (parent self) elemDat
                             temperatureGrad element elemGeom scvfIdx)
                        (SubControlVolumeFace.normal face)).
  { subst self. unfold normalMatrixHeatFlux, constructNI, constructBody.
    cbn [normalMatrixHeatFlux_ parent].
    fold locals. rewrite Hgrad. reflexivity. }
  split; [exact Hgrad|]. split; [exact Hflux|].
  intros Hu Hc Hlaw. rewrite Hflux.
  replace temperatureGrad with (vzero (dimWorld T)).
  - rewrite Hlaw. apply dot_vzero_l.
  - rewrite <- Hgrad. symmetry. apply uniform_temperatureGrad; assumption.
Qed.

(** The example: a uniform temperature under Fourier's law. *)
Lemma C7_witness :
  normalMatrixHeatFlux
    (constructNI (Example.tag true) (fun _ _ _ _ _ => tt)
                 (Example.problem true) tt Example.geometry 0
                 (Example.elemDat (1 / 2)))
  = 0.
Proof.
  destruct (C7_normal_heat_flux
              (Example.tag true) (fun _ _ _ _ _ => tt)
              (Example.problem true) tt Example.geometry 0
              (Example.elemDat (1 / 2))) as (_ & _ & Hzero).
  apply Hzero.
  - apply Example_uniformField.
  - apply Example_scvfGradsCancel.
  - intros tmp fluxDat. apply (vscale_vzero 2).
Defined.


(** A law that writes into the object it is handed changes the base
    part of the constructed object: the text of the constructor alone
    does not keep the base fields, the law has to. *)
Lemma constructBodyInPlace_follows_law :
  parent (constructBodyInPlace Cases.scalarBaseTag Cases.meddlingLaw tt
            Example.geometry 0 (Example.elemDat (1 / 2)) (Cases.entered 7))
  = 0.
Proof. reflexivity. Qed.



(** * The designated sub-control volume *)

Lemma porousDiffCoeffAt_ext vertDat vertDat' ph :
  porosity vertDat' = porosity vertDat ->
  saturation vertDat' ph = saturation vertDat ph ->
  diffCoeff vertDat' ph = diffCoeff vertDat ph ->
  porousDiffCoeffAt vertDat' ph = porousDiffCoeffAt vertDat ph.
Proof.
  intros Hphi Hs Hd. unfold porousDiffCoeffAt.
  rewrite Hphi, Hs, Hd. reflexivity.
Qed.

Lemma staleTmp_ext T elemGeom boundaryFaceIdx elemDat elemDat' :
  (forall idx,
     moleFraction (fluidState (elemDat' idx)) (gPhaseIdx T) (lCompIdx T)
     = moleFraction (fluidState (elemDat idx)) (gPhaseIdx T) (lCompIdx T)) ->
  staleTmp T elemGeom boundaryFaceIdx elemDat'
  = staleTmp T elemGeom boundaryFaceIdx elemDat.
Proof.
  intros Hx. unfold staleTmp, tmpAfterVertices.
  destruct (numVertices elemGeom) as [|k]; [reflexivity|].
  rewrite Hx. reflexivity.
Qed.

Lemma potentialGrad_ext
    (T : TypeTag) (problem problem' : Problem T) (element : Element T)
    (elemGeom : FVElementGeometry) (boundaryFaceIdx : nat)
    (elemDat elemDat' : ElementVolumeVariables) (scvIdx : nat) (ph : nat) :
  (ph < numPhases T)%nat ->
  gravity problem' = gravity problem ->
  (forall idx, pressure (elemDat' idx) ph = pressure (elemDat idx) ph) ->
  (forall idx, density (elemDat' idx) ph = density (elemDat idx) ph) ->
  (forall idx,
     moleFraction (fluidState (elemDat' idx)) (gPhaseIdx T) (lCompIdx T)
     = moleFraction (fluidState (elemDat idx)) (gPhaseIdx T) (lCompIdx T)) ->
  potentialGrad
    (construct T problem' element elemGeom boundaryFaceIdx elemDat' scvIdx) ph
  = potentialGrad
      (construct T problem element elemGeom boundaryFaceIdx elemDat scvIdx) ph.
Proof.
  intros Hph Hg Hp Hrho Hx.
  rewrite !construct_potentialGrad by exact Hph.
  unfold pressureGrad, subtracted, densityIP.
  rewrite (gradSum_ext _ _ _ (fun idx => pressure (elemDat idx) ph))
    by (intros; apply Hp).
  rewrite (shapeSum_ext _ _ (fun idx => density (elemDat idx) ph))
    by (intros; apply Hrho).
  rewrite Hg, (staleTmp_ext T elemGeom boundaryFaceIdx elemDat elemDat' Hx).
  reflexivity.
Qed.

(** C9.  For every phase, the permeability entering [KmvpNormal] is the
    one looked up at the sub-control volume index passed to the
    constructor, and the effective diffusion coefficient is computed from
    the porosity, saturation and diffusion coefficient of the volume
    variables at that same index.  No other vertex takes part: another
    problem and other volume variables that agree on the gravity vector,
    on the pressures, densities and the mole fraction read by the
    gradient loop, and on these lookups at the designated index give the
    same flux intensity and the same diffusion coefficient, whatever
    permeability, porosity, saturation and diffusion coefficient they
    hold elsewhere. *)
Theorem C9_lookups_at_own_scv
    (T : TypeTag) (problem problem' : Problem T) (element : Element T)
    (elemGeom : FVElementGeometry) (boundaryFaceIdx : nat)
    (elemDat elemDat' : ElementVolumeVariables) (scvIdx : nat)
    (phaseIdx : nat) :
  let self :=
    construct T problem element elemGeom boundaryFaceIdx elemDat scvIdx in
  let self' :=
    construct T problem' element elemGeom boundaryFaceIdx elemDat' scvIdx in
  let permeability p :=
    intrinsicPermeability (spatialParameters p) element elemGeom scvIdx in
  (phaseIdx < numPhases T)%nat ->
  (scvIdx_ self = scvIdx
   /\ KmvpNormal self phaseIdx
      = - dot (mv (permeabilityTensor T (permeability problem))
                  (potentialGrad self phaseIdx))
              (BoundaryFace.normal (boundaryFace elemGeom boundaryFaceIdx))
   /\ porousDiffCoeff self phaseIdx
      = porousDiffCoeffAt (elemDat scvIdx) phaseIdx)
  /\ (permeability problem' = permeability problem ->
      porosity (elemDat' scvIdx) = porosity (elemDat scvIdx) ->
      saturation (elemDat' scvIdx) phaseIdx
      = saturation (elemDat scvIdx) phaseIdx ->
      diffCoeff (elemDat' scvIdx) phaseIdx
      = diffCoeff (elemDat scvIdx) phaseIdx ->
      gravity problem' = gravity problem ->
      (forall idx, pressure (elemDat' idx) phaseIdx
                   = pressure (elemDat idx) phaseIdx) ->
      (forall idx, density (elemDat' idx) phaseIdx
                   = density (elemDat idx) phaseIdx) ->
      (forall idx,
         moleFraction (fluidState (elemDat' idx)) (gPhaseIdx T) (lCompIdx T)
         = moleFraction (fluidState (elemDat idx))
                        (gPhaseIdx T) (lCompIdx T)) ->
      KmvpNormal self' phaseIdx = KmvpNormal self phaseIdx
      /\ porousDiffCoeff self' phaseIdx = porousDiffCoeff self phaseIdx).
Proof.
  intros self self' permeability Hph. subst self self' permeability. split.
  - split; [apply construct_scvIdx|].
    split; [apply construct_KmvpNormal | apply construct_porousDiffCoeff];
      exact Hph.
  - intros Hk Hphi Hs Hd Hg Hp Hrho Hx. split.
    + rewrite !construct_KmvpNormal by exact Hph.
      rewrite Hk.
      rewrite (potentialGrad_ext T problem problem' element elemGeom
                 boundaryFaceIdx elemDat elemDat' scvIdx phaseIdx)
        by assumption.
      reflexivity.
    + rewrite !construct_porousDiffCoeff by exact Hph.
      apply porousDiffCoeffAt_ext; assumption.
Qed.

(** The example against a copy whose other vertex lies in another medium
    and whose other sub-control volume has permeability 7. *)
Lemma C9_witness :
  KmvpNormal
    (construct (Example.tag true) (Example.problemElsewhere true) tt
               Example.geometry 0 (Example.elemDatElsewhere (1 / 2)) 0) 1
  = KmvpNormal (Example.boundaryVariables true (1 / 2)) 1
  /\ porousDiffCoeff
       (construct (Example.tag true) (Example.problemElsewhere true) tt
                  Example.geometry 0 (Example.elemDatElsewhere (1 / 2)) 0) 1
     = porousDiffCoeff (Example.boundaryVariables true (1 / 2)) 1.
Proof.
  destruct (C9_lookups_at_own_scv
              (Example.tag true) (Example.problem true)
              (Example.problemElsewhere true) tt Example.geometry 0
              (Example.elemDat (1 / 2)) (Example.elemDatElsewhere (1 / 2))
              0 1) as [_ Hsame].
  - simpl. lia.
  - apply Hsame; try reflexivity; intros [|idx]; reflexivity.
Defined.

(** * More on the boundary variables *)

Lemma construct_molarDensityAtIP
    (T : TypeTag) (problem : Problem T) (element : Element T)
    (elemGeom : FVElementGeometry) (boundaryFaceIdx : nat)
    (elemDat : ElementVolumeVariables) (scvIdx : nat) (ph : nat) :
  (ph < numPhases T)%nat ->
  molarDensityAtIP
    (construct T problem element elemGeom boundaryFaceIdx elemDat scvIdx) ph
  = shapeSum
      (BoundaryFace.shapeValue (boundaryFace elemGeom boundaryFaceIdx))
      (fun idx => molarDensity (elemDat idx) ph) (numVertices elemGeom).
Proof.
  intros Hph. unfold molarDensityAtIP, construct, calculateBoundaryValues_.
  rewrite vertexLoop_eq, phaseLoop_eq. cbn.
  apply list_lookup_total_correct.
  apply lookup_atIPRounds. exact Hph.
Qed.

Lemma shapeSum_uniform bf c n (c0 : Scalar) :
  (forall idx, (idx < n)%nat -> c idx = c0) ->
  shapeSum (BoundaryFace.shapeValue bf) c n = c0 * shapeValuesTotal bf n.
Proof.
  unfold shapeSum, shapeValuesTotal.
  induction n as [|n IH]; intros Hc; simpl; [lra|].
  rewrite IH by (intros; apply Hc; lia). rewrite (Hc n) by lia. lra.
Qed.

(** X1.  The density and the molar density of a phase at the integration
    point are the sums over the vertices of the vertex value times the
    shape value, on every face.  Where the shape values sum to one, a
    density that is the same at every vertex is reproduced exactly. *)
Theorem X1_integration_point_interpolation
    (T : TypeTag) (problem : Problem T) (element : Element T)
    (elemGeom : FVElementGeometry) (boundaryFaceIdx : nat)
    (elemDat : ElementVolumeVariables) (scvIdx : nat) (ph : nat) :
  let self :=
    construct T problem element elemGeom boundaryFaceIdx elemDat scvIdx in
  let bf := boundaryFace elemGeom boundaryFaceIdx in
  let nV := numVertices elemGeom in
  (ph < numPhases T)%nat ->
  densityAtIP self ph
  = shapeSum (BoundaryFace.shapeValue bf)
             (fun idx => density (elemDat idx) ph) nV
  /\ molarDensityAtIP self ph
     = shapeSum (BoundaryFace.shapeValue bf)
                (fun idx => molarDensity (elemDat idx) ph) nV
  /\ (shapeValuesTotal bf nV = 1 ->
      (uniformField elemGeom elemDat (fun v => density v ph) ->
       densityAtIP self ph = density (elemDat 0%nat) ph)
      /\ (uniformField elemGeom elemDat (fun v => molarDensity v ph) ->
          molarDensityAtIP self ph = molarDensity (elemDat 0%nat) ph)).
Proof.
  intros self bf nV Hph. subst self.
  rewrite construct_densityAtIP, construct_molarDensityAtIP by exact Hph.
  unfold densityIP. fold bf nV.
  split; [reflexivity|]. split; [reflexivity|].
  intros Hone.
  split; intros Hu; rewrite (shapeSum_uniform bf _ nV _ Hu), Hone; lra.
Qed.

Lemma Example_shapeValuesTotal :
  shapeValuesTotal (boundaryFace Example.geometry 0) 2 = 1.
Proof. unfold shapeValuesTotal. simpl. lra. Qed.

(** The example: density 1 and molar density 40 at both vertices. *)
Lemma X1_witness :
  densityAtIP (Example.boundaryVariables true (1 / 2)) 1 = 1
  /\ molarDensityAtIP (Example.boundaryVariables true (1 / 2)) 1 = 40.
Proof.
  destruct (X1_integration_point_interpolation
              (Example.tag true) (Example.problem true) tt Example.geometry 0
              (Example.elemDat (1 / 2)) 0 1) as (_ & _ & Hunit).
  - simpl. lia.
  - destruct (Hunit Example_shapeValuesTotal) as [Hrho Hmolar].
    split; [apply Hrho | apply Hmolar]; apply Example_uniformField.
Defined.

Lemma vsub_diag a : vsub a a = vzero (length a).
Proof.
  unfold vsub, vzero. induction a as [|x a IH]; simpl; [reflexivity|].
  rewrite IH. f_equal. lra.
Qed.

Lemma length_vscale a s : length (vscale a s) = length a.
Proof. apply length_map. Qed.

(** X2.  With gravity enabled, the potential gradient of a phase is the
    raw pressure gradient minus the gravity vector times the density of
    the phase interpolated at the integration point, and the Darcy flux
    intensity is the negated projection of [K] applied to it. *)
Theorem X2_buoyancy_correction
    (T : TypeTag) (problem : Problem T) (element : Element T)
    (elemGeom : FVElementGeometry) (boundaryFaceIdx : nat)
    (elemDat : ElementVolumeVariables) (scvIdx : nat) (ph : nat) :
  let self :=
    construct T problem element elemGeom boundaryFaceIdx elemDat scvIdx in
  let bf := boundaryFace elemGeom boundaryFaceIdx in
  let nV := numVertices elemGeom in
  let rawGrad :=
    gradSum (dim T) (BoundaryFace.grad bf)
            (fun idx => pressure (elemDat idx) ph) nV in
  let rho :=
    shapeSum (BoundaryFace.shapeValue bf)
             (fun idx => density (elemDat idx) ph) nV in
  let K :=
    permeabilityTensor T
      (intrinsicPermeability (spatialParameters problem)
         element elemGeom scvIdx) in
  EnableGravity T = true ->
  (ph < numPhases T)%nat ->
  potentialGrad self ph = vsub rawGrad (vscale (gravity problem) rho)
  /\ KmvpNormal self ph
     = - dot (mv K (vsub rawGrad (vscale (gravity problem) rho)))
             (BoundaryFace.normal bf).
Proof.
  intros self bf nV rawGrad rho K Hg Hph.
  assert (Hpg : potentialGrad self ph
                = vsub rawGrad (vscale (gravity problem) rho)).
  { subst self. rewrite construct_potentialGrad by exact Hph.
    unfold subtracted. rewrite Hg. reflexivity. }
  split; [exact Hpg|]. rewrite <- Hpg.
  apply construct_KmvpNormal. exact Hph.
Qed.

(** The example: zero pressure gradient, density 1, gravity (0,-1). *)
Lemma X2_witness :
  potentialGrad (Example.boundaryVariables true (1 / 2)) 1 = [0; 1]
  /\ KmvpNormal (Example.boundaryVariables true (1 / 2)) 1 = 1.
Proof.
  destruct (X2_buoyancy_correction
              (Example.tag true) (Example.problem true) tt Example.geometry 0
              (Example.elemDat (1 / 2)) 0 1) as [Hpg HK].
  - reflexivity.
  - simpl. lia.
  - fold (Example.boundaryVariables true (1 / 2)) in Hpg, HK. split.
    + rewrite Hpg. unfold gradSum, shapeSum. simpl.
      f_equal; [lra|f_equal; lra].
    + rewrite HK. unfold gradSum, shapeSum. cbn. lra.
Defined.

(** X3.  With gravity disabled, line 205 still subtracts the local
    [tmp] from the pressure gradient of every phase.  [tmp] then holds
    what the last round of the vertex loop left in it: the shape-function
    gradient of the last vertex times the mole fraction of the liquid
    component in the gas phase there, or the zero vector for an element
    without vertices. *)
Theorem X3_without_gravity_tmp_is_subtracted
    (T : TypeTag) (problem : Problem T) (element : Element T)
    (elemGeom : FVElementGeometry) (boundaryFaceIdx : nat)
    (elemDat : ElementVolumeVariables) (scvIdx : nat) (ph : nat) :
  let self :=
    construct T problem element elemGeom boundaryFaceIdx elemDat scvIdx in
  let bf := boundaryFace elemGeom boundaryFaceIdx in
  let rawGrad :=
    gradSum (dim T) (BoundaryFace.grad bf)
            (fun idx => pressure (elemDat idx) ph) (numVertices elemGeom) in
  let left :=
    match numVertices elemGeom with
    | O => vzero (dim T)
    | S last =>
        vscale (BoundaryFace.grad bf last)
               (moleFraction (fluidState (elemDat last))
                             (gPhaseIdx T) (lCompIdx T))
    end in
  EnableGravity T = false ->
  (ph < numPhases T)%nat ->
  potentialGrad self ph = vsub rawGrad left.
Proof.
  intros self bf rawGrad left Hg Hph. subst self.
  rewrite potentialGrad_without_gravity by assumption. reflexivity.
Qed.

(** The example with gravity disabled: the last vertex has the gradient
    (1,0) and the mole fraction 1/2. *)
Lemma X3_witness :
  potentialGrad (Example.boundaryVariables false (1 / 2)) 1
  = [- (1 / 2); 0].
Proof.
  unfold Example.boundaryVariables.
  rewrite (X3_without_gravity_tmp_is_subtracted
             (Example.tag false) (Example.problem false) tt
             Example.geometry 0 (Example.elemDat (1 / 2)) 0 1).
  - unfold gradSum. simpl. f_equal; [lra|f_equal; lra].
  - reflexivity.
  - simpl. lia.
Defined.

(** X4.  Hydrostatic equilibrium: with gravity enabled, a phase whose
    raw pressure gradient equals the gravity vector times its density at
    the integration point has a zero potential gradient and a zero Darcy
    flux intensity, whatever the permeability and the face normal. *)
Theorem X4_hydrostatic_equilibrium
    (T : TypeTag) (problem : Problem T) (element : Element T)
    (elemGeom : FVElementGeometry) (boundaryFaceIdx : nat)
    (elemDat : ElementVolumeVariables) (scvIdx : nat) (ph : nat) :
  let self :=
    construct T problem element elemGeom boundaryFaceIdx elemDat scvIdx in
  EnableGravity T = true ->
  (ph < numPhases T)%nat ->
  length (gravity problem) = dim T ->
  pressureGrad T elemGeom boundaryFaceIdx elemDat ph
  = vscale (gravity problem) (densityAtIP self ph) ->
  potentialGrad self ph = vzero (dim T)
  /\ KmvpNormal self ph = 0.
Proof.
  intros self Hg Hph Hlen Hhydro.
  assert (Hpg : potentialGrad self ph = vzero (dim T)).
  { subst self. rewrite potentialGrad_with_gravity by assumption.
    rewrite Hhydro, vsub_diag, length_vscale, Hlen. reflexivity. }
  split; [exact Hpg|].
  subst self. rewrite construct_KmvpNormal by exact Hph.
  rewrite Hpg, mv_vzero, dot_vzero_l. lra.
Qed.

Lemma Cases_resting_pressure idx :
  pressure (Cases.restingState idx) 0%nat
  = 1e5 + (1000 - Cases.position idx !!! 1%nat) * 1000 * 9.81.
Proof.
  unfold Cases.restingState, WaterAirProblem.initial_, WaterAirProblem.entry.
  cbn. lra.
Qed.

(** Water at rest under gravity: the pressure falls by 9810 per metre of
    height, which is the gravity 9.81 times the density 1000. *)
Lemma X4_witness :
  potentialGrad Cases.restingVariables 0 = [0; 0]
  /\ KmvpNormal Cases.restingVariables 0 = 0.
Proof.
  apply (X4_hydrostatic_equilibrium
           (Example.tag true) (Cases.earth 1e-12) tt Cases.verticalGeometry 0
           Cases.restingState 0 0).
  - reflexivity.
  - simpl. lia.
  - reflexivity.
  - rewrite construct_densityAtIP by (simpl; lia).
    unfold pressureGrad, densityIP, gradSum, shapeSum.
    cbn [for_upto numVertices Cases.verticalGeometry boundaryFace
         Cases.verticalFace BoundaryFace.grad BoundaryFace.shapeValue
         density Cases.restingState gravity Cases.earth dim Example.tag].
    rewrite !Cases_resting_pressure.
    unfold vzero. simpl. f_equal; [lra|f_equal; lra].
Defined.

(** * Invariances of the flux intensity *)

Lemma length_vadd a b d :
  length a = d -> length b = d -> length (vadd a b) = d.
Proof.
  intros Ha Hb. unfold vadd. rewrite length_zip_with, Ha, Hb.
  apply Nat.min_id.
Qed.

Lemma vadd_vzero_r a d : length a = d -> vadd a (vzero d) = a.
Proof.
  intros <-. unfold vadd, vzero.
  induction a as [|x a IH]; simpl; [reflexivity|].
  rewrite IH. f_equal. lra.
Qed.

Lemma length_gradSum d g c n :
  (forall idx, (idx < n)%nat -> length (g idx) = d) ->
  length (gradSum d g c n) = d.
Proof.
  unfold gradSum. induction n as [|n IH]; intros Hg; simpl.
  - apply length_vzero.
  - apply length_vadd.
    + apply IH. intros idx Hidx. apply Hg. lia.
    + rewrite length_vscale. apply Hg. lia.
Qed.

Lemma vadd_shift_round G V g (c s : Scalar) :
  vadd (vadd G (vscale V s)) (vscale g (c + s))
  = vadd (vadd G (vscale g c)) (vscale (vadd V g) s).
Proof.
  unfold vadd, vscale. revert V g.
  induction G as [|x G IH]; intros [|v V] [|y g]; simpl; try reflexivity.
  rewrite IH. f_equal. lra.
Qed.

Lemma gradSum_shift d g c n (s : Scalar) :
  gradSum d g (fun idx => c idx + s) n
  = vadd (gradSum d g c n) (vscale (vsum d g n) s).
Proof.
  unfold gradSum, vsum. induction n as [|n IH]; simpl.
  - rewrite vscale_vzero. symmetry. apply vadd_vzero_r, length_vzero.
  - rewrite IH. apply vadd_shift_round.
Qed.

Lemma gradSum_shift_cancel d g c n (s : Scalar) :
  (forall idx, (idx < n)%nat -> length (g idx) = d) ->
  vsum d g n = vzero d ->
  gradSum d g (fun idx => c idx + s) n = gradSum d g c n.
Proof.
  intros Hlen Hz. rewrite gradSum_shift, Hz, vscale_vzero.
  apply vadd_vzero_r, length_gradSum. exact Hlen.
Qed.

(** X5.  Only pressure differences drive the flow: where the
    shape-function gradients of the face sum to zero, raising the
    pressure of a phase by the same amount at every vertex changes
    neither its potential gradient nor its Darcy flux intensity, with
    gravity enabled or not. *)
Theorem X5_pressure_level_is_immaterial
    (T : TypeTag) (problem : Problem T) (element : Element T)
    (elemGeom : FVElementGeometry) (boundaryFaceIdx : nat)
    (elemDat elemDat' : ElementVolumeVariables) (scvIdx : nat) (ph : nat)
    (c : Scalar) :
  let self :=
    construct T problem element elemGeom boundaryFaceIdx elemDat scvIdx in
  let self' :=
    construct T problem element elemGeom boundaryFaceIdx elemDat' scvIdx in
  (ph < numPhases T)%nat ->
  gradsWellFormed T elemGeom boundaryFaceIdx ->
  gradsCancel T elemGeom boundaryFaceIdx ->
  (forall idx, pressure (elemDat' idx) ph = pressure (elemDat idx) ph + c) ->
  (forall idx, density (elemDat' idx) ph = density (elemDat idx) ph) ->
  (forall idx,
     moleFraction (fluidState (elemDat' idx)) (gPhaseIdx T) (lCompIdx T)
     = moleFraction (fluidState (elemDat idx)) (gPhaseIdx T) (lCompIdx T)) ->
  potentialGrad self' ph = potentialGrad self ph
  /\ KmvpNormal self' ph = KmvpNormal self ph.
Proof.
  intros self self' Hph Hwf Hc Hp Hrho Hx.
  assert (Hpg : potentialGrad self' ph = potentialGrad self ph).
  { subst self self'. rewrite !construct_potentialGrad by exact Hph.
    unfold pressureGrad, subtracted, densityIP.
    rewrite (gradSum_ext _ _ _ (fun idx => pressure (elemDat idx) ph + c))
      by (intros; apply Hp).
    rewrite gradSum_shift_cancel by assumption.
    rewrite (shapeSum_ext _ _ (fun idx => density (elemDat idx) ph))
      by (intros; apply Hrho).
    rewrite (staleTmp_ext T elemGeom boundaryFaceIdx elemDat elemDat' Hx).
    reflexivity. }
  split; [exact Hpg|].
  subst self self'. rewrite !construct_KmvpNormal by exact Hph.
  rewrite Hpg. reflexivity.
Qed.

Lemma Example_gradsWellFormed g :
  gradsWellFormed (Example.tag g) Example.geometry 0.
Proof. intros [|idx] _; reflexivity. Qed.

(** The example against the same state with the pressure raised by 7,
    gravity disabled. *)
Lemma X5_witness :
  potentialGrad
    (construct (Example.tag false) (Example.problem false) tt
               Example.geometry 0 (Cases.raised 7) 0) 1
  = potentialGrad (Example.boundaryVariables false (1 / 2)) 1
  /\ KmvpNormal
       (construct (Example.tag false) (Example.problem false) tt
                  Example.geometry 0 (Cases.raised 7) 0) 1
     = KmvpNormal (Example.boundaryVariables false (1 / 2)) 1.
Proof.
  apply (X5_pressure_level_is_immaterial
           (Example.tag false) (Example.problem false) tt Example.geometry 0
           (Example.elemDat (1 / 2)) (Cases.raised 7) 0 1 7).
  - simpl. lia.
  - apply Example_gradsWellFormed.
  - apply Example_gradsCancel.
  - intros idx. reflexivity.
  - intros idx. reflexivity.
  - intros idx. reflexivity.
Defined.

Lemma dot_vscale_r a b s : dot a (vscale b s) = dot a b * s.
Proof.
  unfold vscale. revert b.
  induction a as [|x a IH]; intros [|y b]; simpl; try lra.
  rewrite IH. lra.
Qed.

(** X6.  The flux intensity changes sign with the face normal: on the
    geometry with reversed boundary normals, the potential gradient of
    a phase is the same and [KmvpNormal] is the negated one, provided
    the permeability lookup does not depend on the normals. *)
Theorem X6_reversed_normal_reverses_flux
    (T : TypeTag) (problem : Problem T) (element : Element T)
    (elemGeom : FVElementGeometry) (boundaryFaceIdx : nat)
    (elemDat : ElementVolumeVariables) (scvIdx : nat) (ph : nat) :
  let self :=
    construct T problem element elemGeom boundaryFaceIdx elemDat scvIdx in
  let reversed :=
    construct T problem element (reverseNormals elemGeom) boundaryFaceIdx
              elemDat scvIdx in
  (ph < numPhases T)%nat ->
  intrinsicPermeability (spatialParameters problem) element
    (reverseNormals elemGeom) scvIdx
  = intrinsicPermeability (spatialParameters problem) element
      elemGeom scvIdx ->
  potentialGrad reversed ph = potentialGrad self ph
  /\ KmvpNormal reversed ph = - KmvpNormal self ph.
Proof.
  intros self reversed Hph Hk.
  assert (Hpg : potentialGrad reversed ph = potentialGrad self ph).
  { subst self reversed. rewrite !construct_potentialGrad by exact Hph.
    reflexivity. }
  split; [exact Hpg|].
  subst self reversed. rewrite !construct_KmvpNormal by exact Hph.
  rewrite Hpg, Hk. cbn [reverseNormals boundaryFace BoundaryFace.normal].
  rewrite dot_vscale_r. lra.
Qed.

(** The example seen from the other side of the face. *)
Lemma X6_witness :
  KmvpNormal
    (construct (Example.tag true) (Example.problem true) tt
               (reverseNormals Example.geometry) 0
               (Example.elemDat (1 / 2)) 0) 0
  = - KmvpNormal (Example.boundaryVariables true (1 / 2)) 0.
Proof.
  apply (X6_reversed_normal_reverses_flux
           (Example.tag true) (Example.problem true) tt Example.geometry 0
           (Example.elemDat (1 / 2)) 0 0).
  - simpl. lia.
  - reflexivity.
Defined.

(** X7.  In a grid of dimension two or more, the flux intensity is
    proportional to the intrinsic permeability: a problem with the same
    gravity vector and [c] times the permeability at the designated
    sub-control volume gives [c] times [KmvpNormal]; a zero permeability
    gives a zero flux intensity. *)
Theorem X7_flux_proportional_to_permeability
    (T : TypeTag) (problem problem' : Problem T) (element : Element T)
    (elemGeom : FVElementGeometry) (boundaryFaceIdx : nat)
    (elemDat : ElementVolumeVariables) (scvIdx : nat) (ph : nat)
    (c : Scalar) :
  let self :=
    construct T problem element elemGeom boundaryFaceIdx elemDat scvIdx in
  let self' :=
    construct T problem' element elemGeom boundaryFaceIdx elemDat scvIdx in
  let permeability p :=
    intrinsicPermeability (spatialParameters p) element elemGeom scvIdx in
  (2 <= dim T)%nat ->
  (ph < numPhases T)%nat ->
  gravity problem' = gravity problem ->
  permeability problem' = c * permeability problem ->
  KmvpNormal self' ph = c * KmvpNormal self ph
  /\ (permeability problem = 0 -> KmvpNormal self ph = 0).
Proof.
  intros self self' permeability Hd Hph Hg Hk.
  subst self self' permeability.
  rewrite !construct_KmvpNormal by exact Hph.
  rewrite !dot_mv_permeabilityTensor by exact Hd.
  rewrite (potentialGrad_ext T problem problem' element elemGeom
             boundaryFaceIdx elemDat elemDat scvIdx ph)
    by (assumption || reflexivity).
  split.
  - rewrite Hk. lra.
  - intros Hzero. rewrite Hzero. lra.
Qed.

(** The example state on the vertical face, permeability 3 against
    permeability 1. *)
Lemma X7_witness :
  KmvpNormal
    (construct (Example.tag true) (Cases.earth 3) tt Cases.verticalGeometry
               0 (Example.elemDat (1 / 2)) 0) 0
  = 3 * KmvpNormal
          (construct (Example.tag true) (Cases.earth 1) tt
                     Cases.verticalGeometry 0 (Example.elemDat (1 / 2)) 0) 0.
Proof.
  apply (X7_flux_proportional_to_permeability
           (Example.tag true) (Cases.earth 1) (Cases.earth 3) tt
           Cases.verticalGeometry 0 (Example.elemDat (1 / 2)) 0 0 3).
  - simpl. lia.
  - simpl. lia.
  - reflexivity.
  - simpl. lra.
Defined.

(** * More on the effective diffusion coefficient *)

Lemma Rpower_pos x y : 0 < Rpower x y.
Proof. unfold Rpower. apply exp_pos. Qed.

Lemma Rpower_one_l y : Rpower 1 y = 1.
Proof. unfold Rpower. rewrite ln_1, Rmult_0_r. apply exp_0. Qed.

Lemma Rpower_le_one x y : 0 < x <= 1 -> 0 <= y -> Rpower x y <= 1.
Proof.
  intros Hx Hy. rewrite <- (Rpower_one_l y).
  apply Rle_Rpower_l; [exact Hy | exact Hx].
Qed.

(** [phi * Sw * (phi^-2 * (phi*Sw)^(7/3)) = phi^(4/3) * Sw^(10/3)] *)
Lemma tortuosity_product phi Sw :
  0 < phi -> 0 < Sw ->
  phi * Sw * (Rpower phi (-2) * Rpower (phi * Sw) (7 / 3))
  = Rpower phi (4 / 3) * Rpower Sw (10 / 3).
Proof.
  intros Hphi Hs.
  replace (4 / 3) with (1 + (-2 + 7 / 3)) by lra.
  replace (10 / 3) with (1 + 7 / 3) by lra.
  rewrite !Rpower_plus, !Rpower_1 by assumption.
  rewrite <- (Rpower_mult_distr phi Sw) by assumption.
  ring.
Qed.

Lemma porousDiffCoeffAt_closed vertDat ph :
  0 < saturation vertDat ph -> 0 < porosity vertDat ->
  porousDiffCoeffAt vertDat ph
  = Some (Rpower (porosity vertDat) (4 / 3)
          * Rpower (saturation vertDat ph) (10 / 3)
          * diffCoeff vertDat ph).
Proof.
  intros Hs Hphi. rewrite porousDiffCoeffAt_present by assumption.
  rewrite tortuosity_product by assumption. reflexivity.
Qed.

(** X8.  For a phase of positive saturation [Sw] in a medium of positive
    porosity [phi], the effective diffusion coefficient is
    [phi^(4/3) * Sw^(10/3) * D]. *)
Theorem X8_diffusion_closed_form
    (T : TypeTag) (problem : Problem T) (element : Element T)
    (elemGeom : FVElementGeometry) (boundaryFaceIdx : nat)
    (elemDat : ElementVolumeVariables) (scvIdx : nat) (phaseIdx : nat) :
  let phi := porosity (elemDat scvIdx) in
  let Sw := saturation (elemDat scvIdx) phaseIdx in
  (phaseIdx < numPhases T)%nat ->
  0 < Sw -> 0 < phi ->
  porousDiffCoeff
    (construct T problem element elemGeom boundaryFaceIdx elemDat scvIdx)
    phaseIdx
  = Some (Rpower phi (4 / 3) * Rpower Sw (10 / 3)
          * diffCoeff (elemDat scvIdx) phaseIdx).
Proof.
  intros phi Sw Hph Hs Hphi.
  rewrite construct_porousDiffCoeff by exact Hph.
  apply porousDiffCoeffAt_closed; assumption.
Qed.

(** The gas phase of the example: saturation 1, porosity 1/2. *)
Lemma X8_witness :
  porousDiffCoeff (Example.boundaryVariables true (1 / 2)) 1
  = Some (Rpower (1 / 2) (4 / 3) * Rpower 1 (10 / 3) * 3).
Proof.
  apply (X8_diffusion_closed_form
           (Example.tag true) (Example.problem true) tt Example.geometry 0
           (Example.elemDat (1 / 2)) 0 1).
  - simpl. lia.
  - simpl. lra.
  - simpl. lra.
Defined.

Lemma porousDiffCoeffAt_zero_porosity vertDat ph :
  0 < saturation vertDat ph -> porosity vertDat = 0 ->
  porousDiffCoeffAt vertDat ph = None.
Proof.
  intros Hs Hphi. unfold porousDiffCoeffAt, fdiv.
  destruct (Rle_dec (saturation vertDat ph) 0) as [Hle|_]; [lra|].
  destruct (Req_dec_T (porosity vertDat * porosity vertDat) 0) as [_|Hnz];
    [reflexivity|].
  exfalso. apply Hnz. rewrite Hphi. lra.
Qed.

(** X9.  For a phase of positive saturation at a designated sub-control
    volume of porosity zero, no number is stored as the effective
    diffusion coefficient: the tortuosity expression divides by zero
    (line 220), and what results is stored without being detected. *)
Theorem X9_zero_porosity_is_not_detected
    (T : TypeTag) (problem : Problem T) (element : Element T)
    (elemGeom : FVElementGeometry) (boundaryFaceIdx : nat)
    (elemDat : ElementVolumeVariables) (scvIdx : nat) (phaseIdx : nat) :
  (phaseIdx < numPhases T)%nat ->
  0 < saturation (elemDat scvIdx) phaseIdx ->
  porosity (elemDat scvIdx) = 0 ->
  porousDiffCoeff
    (construct T problem element elemGeom boundaryFaceIdx elemDat scvIdx)
    phaseIdx
  = None.
Proof.
  intros Hph Hs Hphi. rewrite construct_porousDiffCoeff by exact Hph.
  apply porousDiffCoeffAt_zero_porosity; assumption.
Qed.

(** The gas phase of the example in a medium of porosity zero. *)
Lemma X9_witness :
  porousDiffCoeff (Example.boundaryVariables true 0) 1 = None.
Proof.
  apply (X9_zero_porosity_is_not_detected
           (Example.tag true) (Example.problem true) tt Example.geometry 0
           (Example.elemDat 0) 0 1).
  - simpl. lia.
  - simpl. lra.
  - reflexivity.
Defined.

(** X10.  For a saturation and a porosity in (0, 1] and a non-negative
    molecular diffusion coefficient [D], a number stored as the
    effective diffusion coefficient lies between 0 and [D].  The bound
    is on the value in exact arithmetic; that the computation in double
    precision stays within range is not part of it. *)
Theorem X10_diffusion_value_between_zero_and_molecular
    (T : TypeTag) (problem : Problem T) (element : Element T)
    (elemGeom : FVElementGeometry) (boundaryFaceIdx : nat)
    (elemDat : ElementVolumeVariables) (scvIdx : nat) (phaseIdx : nat)
    (v : Scalar) :
  let phi := porosity (elemDat scvIdx) in
  let Sw := saturation (elemDat scvIdx) phaseIdx in
  let D := diffCoeff (elemDat scvIdx) phaseIdx in
  (phaseIdx < numPhases T)%nat ->
  0 < Sw <= 1 -> 0 < phi <= 1 -> 0 <= D ->
  porousDiffCoeff
    (construct T problem element elemGeom boundaryFaceIdx elemDat scvIdx)
    phaseIdx = Some v ->
  0 <= v <= D.
Proof.
  intros phi Sw D Hph Hs Hphi HD Hv.
  rewrite construct_porousDiffCoeff in Hv by exact Hph.
  rewrite porousDiffCoeffAt_closed in Hv by (apply Hs || apply Hphi).
  injection Hv as <-. fold phi Sw D.
  assert (Ha := Rpower_pos phi (4 / 3)).
  assert (Hb := Rpower_pos Sw (10 / 3)).
  assert (Ha1 : Rpower phi (4 / 3) <= 1)
    by (apply Rpower_le_one; [exact Hphi | lra]).
  assert (Hb1 : Rpower Sw (10 / 3) <= 1)
    by (apply Rpower_le_one; [exact Hs | lra]).
  assert (Hab : 0 < Rpower phi (4 / 3) * Rpower Sw (10 / 3) <= 1) by nra.
  nra.
Qed.

(** The gas phase of the example: the value lies between 0 and the
    molecular diffusion coefficient 3. *)
Lemma X10_witness :
  0 <= Rpower (1 / 2) (4 / 3) * Rpower 1 (10 / 3) * 3 <= 3.
Proof.
  apply (X10_diffusion_value_between_zero_and_molecular
           (Example.tag true) (Example.problem true) tt Example.geometry 0
           (Example.elemDat (1 / 2)) 0 1).
  - simpl. lia.
  - simpl. lra.
  - simpl. lra.
  - simpl. lra.
  - rewrite construct_porousDiffCoeff by (simpl; lia).
    apply porousDiffCoeffAt_closed; simpl; lra.
Defined.

Lemma Rpower_le_base x y z : 0 < x <= y -> 0 <= z -> Rpower x z <= Rpower y z.
Proof. intros Hxy Hz. apply Rle_Rpower_l; assumption. Qed.

(** X11.  The effective diffusion coefficient grows with the saturation:
    of two sets of volume variables with the same positive porosity and
    the same non-negative molecular diffusion coefficient at the
    designated sub-control volume, the one with the larger positive
    saturation of the phase has the larger coefficient. *)
Theorem X11_diffusion_grows_with_saturation
    (T : TypeTag) (problem : Problem T) (element : Element T)
    (elemGeom : FVElementGeometry) (boundaryFaceIdx : nat)
    (elemDat elemDat' : ElementVolumeVariables) (scvIdx : nat)
    (phaseIdx : nat) :
  let self :=
    construct T problem element elemGeom boundaryFaceIdx elemDat scvIdx in
  let self' :=
    construct T problem element elemGeom boundaryFaceIdx elemDat' scvIdx in
  (phaseIdx < numPhases T)%nat ->
  0 < porosity (elemDat scvIdx) ->
  porosity (elemDat' scvIdx) = porosity (elemDat scvIdx) ->
  0 <= diffCoeff (elemDat scvIdx) phaseIdx ->
  diffCoeff (elemDat' scvIdx) phaseIdx = diffCoeff (elemDat scvIdx) phaseIdx ->
  0 < saturation (elemDat scvIdx) phaseIdx
    <= saturation (elemDat' scvIdx) phaseIdx ->
  exists v v',
    porousDiffCoeff self phaseIdx = Some v
    /\ porousDiffCoeff self' phaseIdx = Some v'
    /\ v <= v'.
Proof.
  intros self self' Hph Hphi Hphi' HD HD' Hs. subst self self'.
  rewrite !construct_porousDiffCoeff by exact Hph.
  rewrite !porousDiffCoeffAt_closed by lra.
  eexists. eexists. split; [reflexivity|]. split; [reflexivity|].
  rewrite Hphi', HD'.
  assert (Ha := Rpower_pos (porosity (elemDat scvIdx)) (4 / 3)).
  assert (Hb := Rpower_pos (saturation (elemDat scvIdx) phaseIdx) (10 / 3)).
  assert (Hle : Rpower (saturation (elemDat scvIdx) phaseIdx) (10 / 3)
                <= Rpower (saturation (elemDat' scvIdx) phaseIdx) (10 / 3))
    by (apply Rpower_le_base; [exact Hs | lra]).
  apply Rmult_le_compat_r; [exact HD|].
  apply Rmult_le_compat_l; [lra | exact Hle].
Qed.

(** The example at a gas saturation of 1/4 (the state elsewhere, taken
    at the designated vertex) against a gas saturation of 1. *)
Lemma X11_witness :
  exists v v',
    porousDiffCoeff
      (construct (Example.tag true) (Example.problem true) tt
                 Example.geometry 0 (fun _ => Example.stateElsewhere) 0) 1
    = Some v
    /\ porousDiffCoeff
         (construct (Example.tag true) (Example.problem true) tt
                    Example.geometry 0 Cases.saturated 0) 1
       = Some v'
    /\ v <= v'.
Proof.
  apply (X11_diffusion_grows_with_saturation
           (Example.tag true) (Example.problem true) tt Example.geometry 0
           (fun _ => Example.stateElsewhere) Cases.saturated 0 1).
  - simpl. lia.
  - simpl. lra.
  - reflexivity.
  - simpl. lra.
  - reflexivity.
  - simpl. lra.
Defined.

(** * More on the temperature gradient and the heat flux *)

Lemma dot_vscale_l a b s : dot (vscale a s) b = dot a b * s.
Proof.
  unfold vscale. revert b.
  induction a as [|x a IH]; intros [|y b]; simpl; try lra.
  rewrite IH. lra.
Qed.

Lemma vscale_vscale a (s t : Scalar) :
  vscale (vscale a s) t = vscale a (s * t).
Proof.
  unfold vscale. induction a as [|x a IH]; simpl; [reflexivity|].
  rewrite IH. f_equal. lra.
Qed.

Lemma gradSum_scale d g c n (b : Scalar) :
  gradSum d g (fun idx => c idx * b) n = vscale (gradSum d g c n) b.
Proof.
  unfold gradSum. induction n as [|n IH]; simpl.
  - symmetry. apply vscale_vzero.
  - rewrite IH, vscale_vadd, vscale_vscale. reflexivity.
Qed.

Lemma gradSum_affine d g c n (a b : Scalar) :
  (forall idx, (idx < n)%nat -> length (g idx) = d) ->
  vsum d g n = vzero d ->
  gradSum d g (fun idx => a + b * c idx) n = vscale (gradSum d g c n) b.
Proof.
  intros Hlen Hz.
  rewrite (gradSum_ext _ _ _ (fun idx => c idx * b + a))
    by (intros; lra).
  rewrite (gradSum_shift_cancel d g (fun idx => c idx * b) n a Hlen Hz).
  apply gradSum_scale.
Qed.

(** X12.  Under Fourier's law, that is a heat-flux law that returns the
    temperature gradient times [-lambda], the normal heat flux is
    [-lambda] times the projection of the temperature gradient on the
    face normal; for a positive conductivity heat leaves through a face
    along whose normal the temperature falls. *)
Theorem X12_fourier_heat_flux
    (T : TypeTag)
    (ParentType : Problem T -> Element T -> FVElementGeometry -> nat ->
                  ElementVolumeVariables -> TwoPTwoCFluxVariables T)
    (problem : Problem T) (element : Element T)
    (elemGeom : FVElementGeometry) (scvfIdx : nat)
    (elemDat : ElementVolumeVariables) (lambda : Scalar) :
  let self :=
    constructNI T ParentType problem element elemGeom scvfIdx elemDat in
  let face := subContVolFace elemGeom scvfIdx in
  let temperatureGrad :=
    gradSum (dimWorld T) (SubControlVolumeFace.grad face)
            (fun vertIdx => temperature (elemDat vertIdx))
            (numVertices elemGeom) in
  let projection :=
    dot temperatureGrad (SubControlVolumeFace.normal face) in
  (forall tmp fluxDat grad,
     matrixHeatFlux (spatialParameters problem) tmp fluxDat elemDat grad
                    element elemGeom scvfIdx
     = vscale grad (- lambda)) ->
  normalMatrixHeatFlux self = - lambda * projection
  /\ (0 < lambda -> projection < 0 -> 0 < normalMatrixHeatFlux self).
Proof.
  intros self face temperatureGrad projection Hlaw.
  assert (Hflux : normalMatrixHeatFlux self = - lambda * projection).
  { subst self. unfold normalMatrixHeatFlux, constructNI, constructBody.
    cbn [normalMatrixHeatFlux_]. rewrite Hlaw, temperatureGradLoop_fst.
    rewrite dot_vscale_l. subst projection temperatureGrad face. lra. }
  split; [exact Hflux|]. intros Hl Hp. rewrite Hflux. nra.
Qed.

Lemma Cases_resting_temperature idx :
  temperature (Cases.restingState idx)
  = 283 + (1000 - Cases.position idx !!! 1%nat) * 0.03.
Proof.
  unfold Cases.restingState, WaterAirProblem.initial_, WaterAirProblem.entry.
  cbn. lra.
Qed.

(** The geothermal temperature profile under Fourier's law with
    conductivity 2.8: the temperature rises with depth by 0.03 per
    metre, so heat flows upwards, against the downward normal. *)
Lemma X12_witness :
  normalMatrixHeatFlux
    (constructNI (Example.tag true) (fun _ _ _ _ _ => tt)
                 (Cases.earth 1e-12) tt Cases.verticalGeometry 0
                 Cases.restingState)
  = - 2.8 * 0.03.
Proof.
  destruct (X12_fourier_heat_flux
              (Example.tag true) (fun _ _ _ _ _ => tt)
              (Cases.earth 1e-12) tt Cases.verticalGeometry 0
              Cases.restingState 2.8) as [Hflux _].
  - intros tmp fluxDat grad. reflexivity.
  - rewrite Hflux. unfold gradSum.
    cbn [for_upto numVertices Cases.verticalGeometry subContVolFace
         SubControlVolumeFace.grad SubControlVolumeFace.normal
         BoundaryFace.grad Cases.verticalFace dimWorld Example.tag].
    rewrite !Cases_resting_temperature. unfold vzero. cbn. lra.
Defined.

(** X13.  Where the shape-function gradients of the face sum to zero,
    an affine change of the temperature scale, [T' = a + b * T] at every
    vertex, scales the temperature gradient by [b]; a mere shift of the
    scale leaves it unchanged. *)
Theorem X13_temperature_gradient_affine
    (T : TypeTag) (elemGeom : FVElementGeometry) (scvfIdx : nat)
    (elemDat elemDat' : ElementVolumeVariables) (a b : Scalar) :
  scvfGradsWellFormed T elemGeom scvfIdx ->
  scvfGradsCancel T elemGeom scvfIdx ->
  (forall idx,
     temperature (elemDat' idx) = a + b * temperature (elemDat idx)) ->
  fst (temperatureGradLoop T elemGeom scvfIdx elemDat')
  = vscale (fst (temperatureGradLoop T elemGeom scvfIdx elemDat)) b.
Proof.
  intros Hwf Hc HT. rewrite !temperatureGradLoop_fst.
  rewrite (gradSum_ext _ _ _
             (fun idx => a + b * temperature (elemDat idx)))
    by (intros; apply HT).
  apply gradSum_affine; assumption.
Qed.

Lemma Example_scvfGradsWellFormed g :
  scvfGradsWellFormed (Example.tag g) Example.geometry 0.
Proof. intros [|idx] _; reflexivity. Qed.

(** The example with every temperature raised by 7. *)
Lemma X13_witness :
  fst (temperatureGradLoop (Example.tag true) Example.geometry 0
         (Cases.raised 7))
  = vscale (fst (temperatureGradLoop (Example.tag true) Example.geometry 0
                   (Example.elemDat (1 / 2)))) 1.
Proof.
  apply (X13_temperature_gradient_affine
           (Example.tag true) Example.geometry 0
           (Example.elemDat (1 / 2)) (Cases.raised 7) 7 1).
  - apply Example_scvfGradsWellFormed.
  - apply Example_scvfGradsCancel.
  - intros idx. simpl. lra.
Defined.

(** * The obstacle problem's permeability *)

Lemma Rleb_true x y : Rleb x y = true <-> x <= y.
Proof.
  unfold Rleb. destruct (Rle_dec x y); split; intros H;
    try reflexivity; try assumption; try discriminate; contradiction.
Qed.

Lemma Rltb_true x y : Rltb x y = true <-> x < y.
Proof.
  unfold Rltb. destruct (Rlt_dec x y); split; intros H;
    try reflexivity; try assumption; try discriminate; contradiction.
Qed.

Lemma isFineMaterial_true (pos : Vector) :
  ObstacleSpatialParameters.isFineMaterial_ pos = true
  <-> 10 <= pos !!! 0%nat <= 20 /\ 0 <= pos !!! 1%nat <= 35.
Proof.
  unfold ObstacleSpatialParameters.isFineMaterial_.
  rewrite !andb_true_iff, !Rleb_true. tauto.
Qed.

(** X14.  The permeability of the obstacle problem is 1e-15 exactly at
    the sub-control volumes whose position has its first coordinate in
    [10, 20] and its second in [0, 35], bounds included, and 1e-12 at
    all others; further coordinates of the position play no part.  It
    is positive everywhere, and the coarse material is a thousand times
    as permeable as the fine one. *)
Theorem X14_obstacle_permeability
    (Element : Type) (element : Element)
    (fvElemGeom : ObstacleSpatialParameters.FVGeometry) (scvIdx : nat) :
  let pos := ObstacleSpatialParameters.subContVolGlobal fvElemGeom scvIdx in
  let inLens :=
    10 <= pos !!! 0%nat <= 20 /\ 0 <= pos !!! 1%nat <= 35 in
  let k :=
    ObstacleSpatialParameters.intrinsicPermeability
      ObstacleSpatialParameters.construct element fvElemGeom scvIdx in
  (k = 1e-15 <-> inLens)
  /\ (k = 1e-12 <-> ~ inLens)
  /\ 0 < k
  /\ ObstacleSpatialParameters.coarseK_ ObstacleSpatialParameters.construct
     = 1000 * ObstacleSpatialParameters.fineK_
                ObstacleSpatialParameters.construct.
Proof.
  intros pos inLens k. subst k inLens.
  unfold ObstacleSpatialParameters.intrinsicPermeability.
  fold pos.
  destruct (ObstacleSpatialParameters.isFineMaterial_ pos) eqn:E;
    cbn [ObstacleSpatialParameters.construct
         ObstacleSpatialParameters.fineK_
         ObstacleSpatialParameters.coarseK_].
  - apply isFineMaterial_true in E.
    repeat split; try lra; try (intros; exact E);
      try (intros Hn; exfalso; apply Hn; exact E).
  - assert (Hn : ~ (10 <= pos !!! 0%nat <= 20 /\ 0 <= pos !!! 1%nat <= 35)).
    { intros H. apply isFineMaterial_true in H. congruence. }
    repeat split; try lra; try (intros; exact Hn);
      try (intros H; exfalso; apply Hn; exact H).
Qed.

(** The corner (10, 35) of the lens is fine material, the position
    (5, 5) is coarse. *)
Lemma X14_witness :
  ObstacleSpatialParameters.intrinsicPermeability
    ObstacleSpatialParameters.construct tt Cases.obstacleGeometry 0 = 1e-15
  /\ ObstacleSpatialParameters.intrinsicPermeability
       ObstacleSpatialParameters.construct tt Cases.obstacleGeometry 1
     = 1e-12.
Proof.
  destruct (X14_obstacle_permeability unit tt Cases.obstacleGeometry 0)
    as (Hfine & _).
  destruct (X14_obstacle_permeability unit tt Cases.obstacleGeometry 1)
    as (_ & Hcoarse & _).
  split.
  - apply Hfine. cbn. lra.
  - apply Hcoarse. cbn. lra.
Defined.

(** * The water-air problem's initial and boundary values *)

Lemma entry_setEntry_eq i x values :
  (i < length (WaterAirProblem.entries values))%nat ->
  WaterAirProblem.entry (WaterAirProblem.setEntry i x values) i = x.
Proof.
  intros Hi. unfold WaterAirProblem.entry, WaterAirProblem.setEntry. cbn.
  apply list_lookup_total_correct, list_lookup_insert_eq. exact Hi.
Qed.

Lemma entry_setEntry_ne i j x values :
  i <> j ->
  WaterAirProblem.entry (WaterAirProblem.setEntry i x values) j
  = WaterAirProblem.entry values j.
Proof.
  intros Hij. unfold WaterAirProblem.entry, WaterAirProblem.setEntry. cbn.
  rewrite !list_lookup_total_alt, list_lookup_insert_ne by exact Hij.
  reflexivity.
Qed.

Lemma length_setEntry i x values :
  length (WaterAirProblem.entries (WaterAirProblem.setEntry i x values))
  = length (WaterAirProblem.entries values).
Proof. unfold WaterAirProblem.setEntry. cbn. apply length_insert. Qed.

Lemma initial__entries I self values globalPos :
  indicesWellFormed I values ->
  let v := WaterAirProblem.initial_ I self values globalPos in
  WaterAirProblem.entry v (WaterAirProblem.pressureIdx I)
  = 1e5 + (WaterAirProblem.maxDepth_ self - globalPos !!! 1%nat)
          * 1000.0 * 9.81
  /\ WaterAirProblem.entry v (WaterAirProblem.switchIdx I) = 0
  /\ WaterAirProblem.entry v (WaterAirProblem.temperatureIdx I)
     = 283.0 + (WaterAirProblem.maxDepth_ self - globalPos !!! 1%nat) * 0.03.
Proof.
  intros (Hp & Hs & Ht & Hps & Hpt & Hst) v. subst v.
  unfold WaterAirProblem.initial_.
  split; [|split].
  - rewrite !entry_setEntry_ne by congruence.
    apply entry_setEntry_eq. exact Hp.
  - rewrite entry_setEntry_ne by congruence.
    rewrite entry_setEntry_eq; [lra|].
    rewrite length_setEntry. exact Hs.
  - apply entry_setEntry_eq. rewrite !length_setEntry. exact Ht.
Qed.

(** X15.  The values prescribed on Dirichlet boundaries, for primary
    variable indices that address distinct entries: the pressure is
    hydrostatic, 1e5 at the height [maxDepth_] and rising by
    1000 * 9.81 per metre of depth; the switch variable is zero; the
    temperature is 283 at the height [maxDepth_] and rises by 0.03 per
    metre of depth; the phase presence is liquid only; every other entry
    keeps its value.  None of them depends on the first coordinate. *)
Theorem X15_dirichlet_values
    (I : WaterAirProblem.Indices) (self : WaterAirProblem.t)
    (values : WaterAirProblem.PrimaryVariables) (globalPos : Vector) :
  let v := WaterAirProblem.dirichlet I self values globalPos in
  let depth := WaterAirProblem.maxDepth_ self - globalPos !!! 1%nat in
  indicesWellFormed I values ->
  WaterAirProblem.entry v (WaterAirProblem.pressureIdx I)
  = 1e5 + depth * (1000 * 9.81)
  /\ WaterAirProblem.entry v (WaterAirProblem.switchIdx I) = 0
  /\ WaterAirProblem.entry v (WaterAirProblem.temperatureIdx I)
     = 283 + depth * 0.03
  /\ WaterAirProblem.phasePresence v = WaterAirProblem.lPhaseOnly I
  /\ length (WaterAirProblem.entries v)
     = length (WaterAirProblem.entries values)
  /\ forall i,
       i <> WaterAirProblem.pressureIdx I ->
       i <> WaterAirProblem.switchIdx I ->
       i <> WaterAirProblem.temperatureIdx I ->
       WaterAirProblem.entry v i = WaterAirProblem.entry values i.
Proof.
  intros v depth Hwf. subst v depth. unfold WaterAirProblem.dirichlet.
  destruct (initial__entries I self values globalPos Hwf) as (Hp & Hs & Ht).
  split; [rewrite Hp; lra|]. split; [exact Hs|].
  split; [rewrite Ht; lra|]. split; [reflexivity|].
  unfold WaterAirProblem.initial_. split.
  - rewrite !length_setEntry. reflexivity.
  - intros i Hip His Hit. rewrite !entry_setEntry_ne by congruence.
    reflexivity.
Qed.

Lemma Cases_indicesWellFormed : indicesWellFormed Cases.indices Cases.blank.
Proof. unfold indicesWellFormed. cbn. repeat split; lia. Qed.

(** At the height 1000 of the constructed problem: atmospheric pressure
    and 283 K. *)
Lemma X15_witness :
  WaterAirProblem.entry Cases.surfaceValues 0 = 1e5
  /\ WaterAirProblem.entry Cases.surfaceValues 2 = 283.
Proof.
  destruct (X15_dirichlet_values Cases.indices WaterAirProblem.construct
              Cases.blank [0; 1000] Cases_indicesWellFormed)
    as (Hp & _ & Ht & _).
  fold Cases.surfaceValues in Hp, Ht. split.
  - change (WaterAirProblem.entry Cases.surfaceValues 0) with
      (WaterAirProblem.entry Cases.surfaceValues
         (WaterAirProblem.pressureIdx Cases.indices)).
    rewrite Hp. cbn. lra.
  - change (WaterAirProblem.entry Cases.surfaceValues 2) with
      (WaterAirProblem.entry Cases.surfaceValues
         (WaterAirProblem.temperatureIdx Cases.indices)).
    rewrite Ht. cbn. lra.
Defined.

Lemma hotZone_true (pos : Vector) :
  Rltb 20 (pos !!! 0%nat) && Rltb (pos !!! 0%nat) 30
  && Rltb (pos !!! 1%nat) 30 = true
  <-> 20 < pos !!! 0%nat < 30 /\ pos !!! 1%nat < 30.
Proof. rewrite !andb_true_iff, !Rltb_true. tauto. Qed.

(** X16.  The initial values are the Dirichlet values except in the
    region [20 < x < 30, y < 30], where the temperature entry is 380 and
    every other entry and the phase presence are the Dirichlet ones.  On
    the lateral boundaries of the constructed problem, [x < eps] or
    [x > 40 - eps], initial and Dirichlet values coincide. *)
Theorem X16_initial_against_dirichlet
    (I : WaterAirProblem.Indices)
    (values : WaterAirProblem.PrimaryVariables) (globalPos : Vector) :
  let self := WaterAirProblem.construct in
  let x := globalPos !!! 0%nat in
  let y := globalPos !!! 1%nat in
  let v0 := WaterAirProblem.initial I self values globalPos in
  let vD := WaterAirProblem.dirichlet I self values globalPos in
  (WaterAirProblem.temperatureIdx I
   < length (WaterAirProblem.entries values))%nat ->
  (~ (20 < x < 30 /\ y < 30) -> v0 = vD)
  /\ (20 < x < 30 /\ y < 30 ->
      WaterAirProblem.entry v0 (WaterAirProblem.temperatureIdx I) = 380
      /\ WaterAirProblem.phasePresence v0 = WaterAirProblem.phasePresence vD
      /\ forall i, i <> WaterAirProblem.temperatureIdx I ->
           WaterAirProblem.entry v0 i = WaterAirProblem.entry vD i)
  /\ (x < WaterAirProblem.eps_ self \/ 40 - WaterAirProblem.eps_ self < x ->
      v0 = vD).
Proof.
  intros self x y v0 vD Ht.
  assert (Hout : ~ (20 < x < 30 /\ y < 30) -> v0 = vD).
  { intros Hn. subst v0 vD x y.
    unfold WaterAirProblem.initial, WaterAirProblem.dirichlet.
    destruct (_ && _ && _) eqn:E; [|reflexivity].
    apply hotZone_true in E. contradiction. }
  split; [exact Hout|]. split.
  - intros Hin. subst v0 vD x y.
    unfold WaterAirProblem.initial, WaterAirProblem.dirichlet.
    apply hotZone_true in Hin. rewrite Hin.
    split; [|split].
    + apply entry_setEntry_eq. unfold WaterAirProblem.initial_.
      rewrite !length_setEntry. exact Ht.
    + reflexivity.
    + intros i Hi. apply entry_setEntry_ne. congruence.
  - intros Hlat. apply Hout. subst self x.
    change (WaterAirProblem.eps_ WaterAirProblem.construct) with 1e-6
      in Hlat.
    intros [Hx _]. destruct Hlat; lra.
Qed.

(** A vertex on the left boundary and one in the heated region. *)
Lemma X16_witness :
  WaterAirProblem.initial Cases.indices WaterAirProblem.construct
                          Cases.blank [0; 10]
  = WaterAirProblem.dirichlet Cases.indices WaterAirProblem.construct
                              Cases.blank [0; 10]
  /\ WaterAirProblem.entry
       (WaterAirProblem.initial Cases.indices WaterAirProblem.construct
                                Cases.blank [25; 10]) 2
     = 380.
Proof.
  destruct (X16_initial_against_dirichlet Cases.indices Cases.blank [0; 10])
    as (_ & _ & Hlateral); [cbn; lia|].
  destruct (X16_initial_against_dirichlet Cases.indices Cases.blank [25; 10])
    as (_ & Hhot & _); [cbn; lia|].
  split.
  - apply Hlateral. left. change (0 < 1e-6). lra.
  - apply Hhot. change (20 < 25 < 30 /\ 10 < 30). lra.
Defined.

Lemma injectionStrip_true (self : WaterAirProblem.t) (pos : Vector) :
  Rltb 15 (pos !!! 0%nat) && Rltb (pos !!! 0%nat) 25
  && Rltb (pos !!! 1%nat) (WaterAirProblem.eps_ self) = true
  <-> 15 < pos !!! 0%nat < 25 /\ pos !!! 1%nat < WaterAirProblem.eps_ self.
Proof. rewrite !andb_true_iff, !Rltb_true. tauto. Qed.

Lemma lookup_total_zeros n i : replicate n (0 : Scalar) !!! i = 0.
Proof. apply (lookup_total_vzero n i). Qed.

(** X17.  The Neumann values do not depend on what the rate vector held
    before and keep its length.  All entries are zero except the one of
    the nitrogen continuity equation, which is -1e-3 (an influx) where
    [15 < x < 25] and [y < eps] and zero elsewhere; so no entry is ever
    positive. *)
Theorem X17_neumann_values
    (I : WaterAirProblem.Indices) (self : WaterAirProblem.t)
    (values : list Scalar) (globalPos : Vector) :
  let x := globalPos !!! 0%nat in
  let y := globalPos !!! 1%nat in
  let flux := WaterAirProblem.neumann I self values globalPos in
  let inStrip := 15 < x < 25 /\ y < WaterAirProblem.eps_ self in
  (WaterAirProblem.contiN2EqIdx I < length values)%nat ->
  length flux = length values
  /\ (forall i, i <> WaterAirProblem.contiN2EqIdx I -> flux !!! i = 0)
  /\ (inStrip -> flux !!! WaterAirProblem.contiN2EqIdx I = -1e-3)
  /\ (~ inStrip -> flux !!! WaterAirProblem.contiN2EqIdx I = 0)
  /\ (forall i, flux !!! i <= 0).
Proof.
  intros x y flux inStrip Hidx. subst flux inStrip x y.
  unfold WaterAirProblem.neumann.
  destruct (_ && _ && _) eqn:E.
  - apply injectionStrip_true in E.
    split; [rewrite length_insert, length_replicate; reflexivity|].
    split.
    { intros i Hi. rewrite list_lookup_total_insert_ne by congruence.
      apply lookup_total_zeros. }
    assert (Hin : <[WaterAirProblem.contiN2EqIdx I := -1e-3]>
                    (replicate (length values) 0)
                  !!! WaterAirProblem.contiN2EqIdx I = -1e-3).
    { apply list_lookup_total_insert_eq.
      rewrite length_replicate. exact Hidx. }
    split; [intros _; exact Hin|].
    split; [intros Hn; contradiction|].
    intros i. destruct (decide (i = WaterAirProblem.contiN2EqIdx I)) as [->|Hi].
    + rewrite Hin. lra.
    + rewrite list_lookup_total_insert_ne by congruence.
      rewrite lookup_total_zeros. lra.
  - assert (Hn : ~ (15 < globalPos !!! 0%nat < 25
                    /\ globalPos !!! 1%nat < WaterAirProblem.eps_ self)).
    { intros H. apply injectionStrip_true in H. congruence. }
    split; [apply length_replicate|].
    split; [intros i _; apply lookup_total_zeros|].
    split; [intros H; contradiction|].
    split; [intros _; apply lookup_total_zeros|].
    intros i. rewrite lookup_total_zeros. lra.
Qed.

(** The bottom of the domain at x = 20, with a rate vector that held
    other values before. *)
Lemma X17_witness :
  WaterAirProblem.neumann Cases.indices WaterAirProblem.construct
                          [5; 6; 7] [20; 0]
  !!! 1%nat = -1e-3.
Proof.
  destruct (X17_neumann_values Cases.indices WaterAirProblem.construct
              [5; 6; 7] [20; 0]) as (_ & _ & Hin & _).
  - cbn. lia.
  - apply Hin. change (15 < 20 < 25 /\ 0 < 1e-6). lra.
Defined.

(** * The water-air problem's values in the boundary variables *)

(** X18.  A water column at rest stays at rest.  Take a two-dimensional
    boundary face whose shape functions reproduce the height (their
    gradients sum to zero, and weighted with the heights of the vertices
    they sum to the unit vector of the second axis) and whose shape
    values sum to one.  If the pressure of a phase at every vertex is
    the Dirichlet pressure of the water-air problem at the position of
    the vertex, its density is 1000 and gravity is 9.81 down the second
    axis, then the potential gradient and the Darcy flux intensity of
    the phase are zero. *)
Theorem X18_water_column_at_rest
    (T : TypeTag) (problem : Problem T) (element : Element T)
    (elemGeom : FVElementGeometry) (boundaryFaceIdx : nat)
    (elemDat : ElementVolumeVariables) (scvIdx : nat) (ph : nat)
    (I : WaterAirProblem.Indices)
    (values : WaterAirProblem.PrimaryVariables)
    (position : nat -> Vector) :
  let self :=
    construct T problem element elemGeom boundaryFaceIdx elemDat scvIdx in
  let bf := boundaryFace elemGeom boundaryFaceIdx in
  let nV := numVertices elemGeom in
  dim T = 2%nat ->
  EnableGravity T = true ->
  (ph < numPhases T)%nat ->
  gravity problem = [0; -9.81] ->
  gradsWellFormed T elemGeom boundaryFaceIdx ->
  gradsCancel T elemGeom boundaryFaceIdx ->
  gradSum (dim T) (BoundaryFace.grad bf)
          (fun idx => position idx !!! 1%nat) nV = [0; 1] ->
  shapeValuesTotal bf nV = 1 ->
  indicesWellFormed I values ->
  (forall idx,
     pressure (elemDat idx) ph
     = WaterAirProblem.entry
         (WaterAirProblem.dirichlet I WaterAirProblem.construct values
                                    (position idx))
         (WaterAirProblem.pressureIdx I)) ->
  (forall idx, (idx < nV)%nat -> density (elemDat idx) ph = 1000) ->
  potentialGrad self ph = [0; 0]
  /\ KmvpNormal self ph = 0.
Proof.
  intros self bf nV Hdim Hg Hph Hgrav Hwf Hc Hheight Hone HI Hp Hrho.
  assert (Hpg : potentialGrad self ph = [0; 0]).
  { subst self. rewrite potentialGrad_with_gravity by assumption.
    rewrite construct_densityAtIP by exact Hph.
    unfold pressureGrad, densityIP. fold bf nV.
    rewrite (shapeSum_uniform bf _ nV 1000 Hrho), Hone.
    rewrite (gradSum_ext _ _ _
               (fun idx => (1e5 + 1000 * 9810)
                           + (- 9810) * (position idx !!! 1%nat))).
    - rewrite gradSum_affine by assumption.
      rewrite Hheight, Hgrav. simpl. f_equal; [lra|f_equal; lra].
    - intros idx _. rewrite Hp. unfold WaterAirProblem.dirichlet.
      destruct (initial__entries I WaterAirProblem.construct values
                  (position idx) HI) as (Hpressure & _).
      rewrite Hpressure.
      change (WaterAirProblem.maxDepth_ WaterAirProblem.construct)
        with 1000.0.
      lra. }
  split; [exact Hpg|].
  subst self. rewrite construct_KmvpNormal by exact Hph.
  rewrite Hpg. change [0; 0] with (vzero 2).
  rewrite mv_vzero, dot_vzero_l. lra.
Qed.

Lemma Cases_vertical_gradsCancel :
  gradsCancel (Example.tag true) Cases.verticalGeometry 0.
Proof.
  unfold gradsCancel, vsum, vzero. simpl. f_equal; [lra|f_equal; lra].
Qed.

(** The two vertices one above the other, with the Dirichlet pressures
    of the water-air problem. *)
Lemma X18_witness :
  potentialGrad Cases.restingVariables 1 = [0; 0]
  /\ KmvpNormal Cases.restingVariables 1 = 0.
Proof.
  apply (X18_water_column_at_rest
           (Example.tag true) (Cases.earth 1e-12) tt Cases.verticalGeometry 0
           Cases.restingState 0 1 Cases.indices Cases.blank Cases.position).
  - reflexivity.
  - reflexivity.
  - simpl. lia.
  - reflexivity.
  - intros [|idx] _; reflexivity.
  - apply Cases_vertical_gradsCancel.
  - unfold gradSum. simpl. f_equal; [lra|f_equal; lra].
  - unfold shapeValuesTotal. simpl. lra.
  - apply Cases_indicesWellFormed.
  - intros idx. reflexivity.
  - intros idx _. reflexivity.
Defined.
